(** * Gas providers of hardhat-core: a shallow embedding and its properties

    Source: packages/hardhat-core/src/internal/core/providers/gas-providers.ts

    The provider wrappers are embedded as programs of a state-and-exception
    monad.  The state holds the fields of the wrapper instance ([this]), the
    state of the wrapped provider and the list of the requests sent to it so
    far.  An [await] is a sequencing point: requests to one instance are run
    one after the other, interleavings of concurrent requests are not
    represented.

    JavaScript numbers are represented exactly: integers as [Z], the gas
    multiplier and the constant 0.95 as rationals of [Q]; [Math.floor] is
    [Qfloor].  Rounding of IEEE doubles is not represented.  [BN] values are
    integers of [Z].  Strings are byte strings. *)

From Stdlib Require Import ZArith QArith Qround List String Ascii Bool Lia.
From Stdlib Require HexString DecimalString.
Import ListNotations.

#[local] Open Scope string_scope.
#[local] Open Scope list_scope.
#[local] Open Scope Z_scope.

(** ** JSON-shaped values *)

#[local] Set Warnings "-register-all".

(** Request parameters, responses and transactions are untyped in the source
    ([any], [unknown]).  An object keeps its properties in insertion order. *)
Inductive value : Type :=
| VUndefined
| VNull
| VBool (b : bool)
| VNum (n : Z)
| VStr (s : string)
| VArr (items : list value)
| VObj (props : list (string * value)).

(** [v === undefined] *)
Definition isUndefined (v : value) : bool :=
  match v with
  | VUndefined => true
  | _ => false
  end.

Fixpoint lookup (k : string) (ps : list (string * value)) : value :=
  match ps with
  | [] => VUndefined
  | (k', v) :: ps' => if String.eqb k k' then v else lookup k ps'
  end.

(** Assignment to a property: an existing property keeps its position, a new
    one is added last. *)
Fixpoint assign (k : string) (v : value) (ps : list (string * value))
  : list (string * value) :=
  match ps with
  | [] => [(k, v)]
  | (k', v') :: ps' =>
      if String.eqb k k' then (k, v) :: ps' else (k', v') :: assign k v ps'
  end.

(** ** Errors and outcomes *)

(** What a [throw] carries: an instance of [Error] (of any subclass) with its
    message, or any other value. *)
Inductive error : Type :=
| Err (message : string)
| NonError (v : value).

Inductive outcome (A : Type) : Type :=
| Returned (a : A)
| Threw (e : error).

Arguments Returned {A} a.
Arguments Threw {A} e.

(** Messages of the errors raised by the language runtime and by the quantity
    codec.  Their wording belongs to the engine and to base-types.ts; the
    wrappers only ever search them for a substring. *)
Class Runtime : Type := {
  typeErrorMessage : value -> string -> string;
  invalidQuantityMessage : value -> string
}.

Section Values.
Context {RT : Runtime}.

(** [o.k] for the property names the wrappers read, none of which exists on
    a primitive or on an array. *)
Definition getProp (o : value) (k : string) : outcome value :=
  match o with
  | VObj ps => Returned (lookup k ps)
  | VUndefined | VNull => Threw (Err (typeErrorMessage o k))
  | _ => Returned VUndefined
  end.

(** [o.k = v] in strict mode, giving the updated object.  An array used as
    an object (a named property added to it) is not represented: it is
    treated like a primitive. *)
Definition setProp (o : value) (k : string) (v : value) : outcome value :=
  match o with
  | VObj ps => Returned (VObj (assign k v ps))
  | _ => Threw (Err (typeErrorMessage o k))
  end.

Definition indexKey (i : nat) : string :=
  DecimalString.NilZero.string_of_uint (Nat.to_uint i).

(** [o[i]] for a literal index [i]. *)
Definition index (o : value) (i : nat) : outcome value :=
  match o with
  | VArr items => Returned (nth i items VUndefined)
  | VStr s =>
      Returned match String.get i s with
               | Some c => VStr (String c "")
               | None => VUndefined
               end
  | VObj ps => Returned (lookup (indexKey i) ps)
  | VUndefined | VNull => Threw (Err (typeErrorMessage o (indexKey i)))
  | _ => Returned VUndefined
  end.
End Values.

(** ** The quantity codec (jsonrpc/types/base-types.ts) *)

Definition isHexDigit (c : ascii) : bool :=
  match HexString.ascii_to_digit c with
  | Some _ => true
  | None => false
  end.

Fixpoint allHexDigits (s : string) : bool :=
  match s with
  | "" => true
  | String c s' => isHexDigit c && allHexDigits s'
  end.

(** The digits of a quantity: at least one, hexadecimal, and no leading zero
    unless the only digit is a zero. *)
Definition quantityDigits (s : string) : bool :=
  match s with
  | "" => false
  | String c s' =>
      allHexDigits s && (negb (Ascii.eqb c "0") || String.eqb s' "")
  end.

(** Modelled from the spec: the decoder of base-types.ts is missing from the
    sources.  A quantity is "a non-negative integer encoded as 0x-prefixed
    hexadecimal with no redundant leading zero (beyond a single 0x0 for
    zero)"; any other string is not a quantity. *)
Definition decodeQuantity (s : string) : option Z :=
  match s with
  | String c0 (String c1 ds) =>
      if Ascii.eqb c0 "0" && Ascii.eqb c1 "x" && quantityDigits ds
      then Some (Z.of_N (HexString.Raw.to_N ds 0%N))
      else None
  | _ => None
  end.

(** Modelled from the spec: the encoder of base-types.ts is missing from the
    sources.  It writes ["0x"] followed by the integer in base 16, which is
    the minimal-digit form for a non-negative integer; a negative integer is
    written as the language writes it, with its sign after the prefix. *)
Definition numberToRpcQuantity (n : Z) : string :=
  match n with
  | Z0 => "0x0"
  | Zpos p => HexString.of_pos p
  | Zneg p => ("0x-" ++ HexString.Raw.of_pos p "")%string
  end.

Section Codec.
Context {RT : Runtime}.

(** Modelled from the spec: [rpcQuantityToBN] of base-types.ts decodes a
    quantity and raises an error on anything else. *)
Definition rpcQuantityToBN (v : value) : outcome Z :=
  match v with
  | VStr s =>
      match decodeQuantity s with
      | Some n => Returned n
      | None => Threw (Err (invalidQuantityMessage v))
      end
  | _ => Threw (Err (invalidQuantityMessage v))
  end.

(** Modelled from the spec: [rpcQuantityToNumber] of base-types.ts, the same
    decoding into a number. *)
Definition rpcQuantityToNumber (v : value) : outcome Z :=
  rpcQuantityToBN v.
End Codec.

(** ** Strings *)

Definition lowerAscii (c : ascii) : ascii :=
  let n := nat_of_ascii c in
  if (65 <=? n)%nat && (n <=? 90)%nat then ascii_of_nat (n + 32) else c.

(** [s.toLowerCase()] on the ASCII letters; other bytes are kept. *)
Fixpoint toLowerCase (s : string) : string :=
  match s with
  | "" => ""
  | String c s' => String (lowerAscii c) (toLowerCase s')
  end.

(** [s.includes(sub)] *)
Fixpoint includes (s sub : string) : bool :=
  String.prefix sub s ||
  match s with
  | "" => false
  | String _ s' => includes s' sub
  end.

(** ** Requests and the wrapped provider *)

(** [params] is optional in the source. *)
Record RequestArguments : Type := {
  method : string;
  params : option (list value)
}.

(** The EIP-1193 interface of the wrapped provider: one operation, which
    answers or throws and may change the provider's own state. *)
Class EIP1193Provider : Type := {
  World : Type;
  provider_request : RequestArguments -> World -> outcome value * World
}.

(** Who sent a request to the wrapped provider: the caller, whose request the
    wrapper forwards, or the wrapper itself. *)
Inductive origin : Type :=
| Forwarded
| Auxiliary.

Record call : Type := {
  call_origin : origin;
  call_request : RequestArguments;
  call_response : outcome value
}.

Section Monad.
Context {P : EIP1193Provider}.

(** [F] is the type of the fields of the wrapper instance. *)
Record state (F : Type) : Type := {
  this : F;
  world : World;
  calls : list call
}.

Arguments this {F} s.
Arguments world {F} s.
Arguments calls {F} s.

Definition M (F A : Type) : Type := state F -> outcome A * state F.

Definition ret {F A} (a : A) : M F A := fun s => (Returned a, s).

Definition throw {F A} (e : error) : M F A := fun s => (Threw e, s).

Definition bind {F A B} (m : M F A) (k : A -> M F B) : M F B :=
  fun s =>
    match m s with
    | (Returned a, s') => k a s'
    | (Threw e, s') => (Threw e, s')
    end.

(** [try { m } catch (error) { h error }] *)
Definition try_catch {F A} (m : M F A) (h : error -> M F A) : M F A :=
  fun s =>
    match m s with
    | (Returned a, s') => (Returned a, s')
    | (Threw e, s') => h e s'
    end.

Definition lift {F A} (o : outcome A) : M F A := fun s => (o, s).

Definition getThis {F} : M F F := fun s => (Returned (this s), s).

Definition setThis {F} (f : F) : M F unit :=
  fun s => (Returned tt, {| this := f; world := world s; calls := calls s |}).

(** [await this._wrappedProvider.request(req)] *)
Definition wrappedRequest {F} (o : origin) (req : RequestArguments)
  : M F value :=
  fun s =>
    let (r, w) := provider_request req (world s) in
    (r, {| this := this s;
           world := w;
           calls := calls s ++
                    [{| call_origin := o;
                        call_request := req;
                        call_response := r |}] |}).
End Monad.

Arguments this {P F} s.
Arguments world {P F} s.
Arguments calls {P F} s.

Declare Scope gas_scope.
Delimit Scope gas_scope with gas.
Notation "x <- m ;; k" := (bind m (fun x => k))
  (at level 61, m at next level, right associativity) : gas_scope.
Notation "m ;;; k" := (bind m (fun _ => k))
  (at level 61, right associativity) : gas_scope.
#[local] Open Scope gas_scope.

(** Modelled from the spec: [_getParams] of wrapper.ts is missing from the
    sources; it is the "helper to read a request's parameter list".  A
    request without parameters has the empty list. *)
Definition _getParams (args : RequestArguments) : list value :=
  match params args with
  | Some ps => ps
  | None => []
  end.

(** [params[0]] *)
Definition firstParam (ps : list value) : value := nth 0 ps VUndefined.

(** The request after [params[0]] was mutated into [tx]: the transaction is
    the very object the request holds, so the wrapped provider sees the
    change. *)
Definition withTx (args : RequestArguments) (tx : value) : RequestArguments :=
  {| method := method args; params := Some (tx :: tl (_getParams args)) |}.

(** [tx.k === undefined] *)
Definition propUndefined {P : EIP1193Provider} {RT : Runtime} {F}
  (tx : value) (k : string) : M F bool :=
  v <- lift (getProp tx k) ;; ret (isUndefined v).

Definition DEFAULT_GAS_MULTIPLIER : Q := 1.

(** ** FixedGasProvider *)

Module FixedGasProvider.
Record t : Type := { _gasLimit : Z }.

Section Methods.
Context {P : EIP1193Provider} {RT : Runtime}.

Definition request (args : RequestArguments) : M t value :=
  args' <-
    (if String.eqb (method args) "eth_sendTransaction" then
       let params := _getParams args in
       let tx := firstParam params in
       if isUndefined tx then ret args else
       noGas <- propUndefined tx "gas" ;;
       if noGas then
         self <- getThis ;;
         tx' <- lift (setProp tx "gas"
                        (VStr (numberToRpcQuantity (_gasLimit self)))) ;;
         ret (withTx args tx')
       else ret args
     else ret args) ;;
  wrappedRequest Forwarded args'.
End Methods.
End FixedGasProvider.

(** ** FixedGasPriceProvider *)

Module FixedGasPriceProvider.
Record t : Type := { _gasPrice : Z }.

Section Methods.
Context {P : EIP1193Provider} {RT : Runtime}.

Definition request (args : RequestArguments) : M t value :=
  args' <-
    (if String.eqb (method args) "eth_sendTransaction" then
       let params := _getParams args in
       let tx := firstParam params in
       if isUndefined tx then ret args else
       noGasPrice <- propUndefined tx "gasPrice" ;;
       if negb noGasPrice then ret args else
       noMaxFee <- propUndefined tx "maxFeePerGas" ;;
       if negb noMaxFee then ret args else
       noMaxPriorityFee <- propUndefined tx "maxPriorityFeePerGas" ;;
       if negb noMaxPriorityFee then ret args else
       self <- getThis ;;
       tx' <- lift (setProp tx "gasPrice"
                      (VStr (numberToRpcQuantity (_gasPrice self)))) ;;
       ret (withTx args tx')
     else ret args) ;;
  wrappedRequest Forwarded args'.
End Methods.
End FixedGasPriceProvider.

(** ** MultipliedGasEstimationProvider *)

Definition latestBlockRequest : RequestArguments :=
  {| method := "eth_getBlockByNumber";
     params := Some [VStr "latest"; VBool false] |}.

Module MultipliedGasEstimationProvider.
Record t : Type := {
  _gasMultiplier : Q;
  _blockGasLimit : option Z
}.

Definition estimateGasRequest (params : list value) : RequestArguments :=
  {| method := "eth_estimateGas"; params := Some params |}.

Section Methods.
Context {P : EIP1193Provider} {RT : Runtime}.

Definition _getBlockGasLimit : M t Z :=
  self <- getThis ;;
  match _blockGasLimit self with
  | Some blockGasLimit => ret blockGasLimit
  | None =>
      latestBlock <- wrappedRequest Auxiliary latestBlockRequest ;;
      gasLimit <- lift (getProp latestBlock "gasLimit") ;;
      fetchedGasLimit <- lift (rpcQuantityToNumber gasLimit) ;;
      (* We store a lower value in case the gas limit varies slightly *)
      let blockGasLimit := Qfloor (inject_Z fetchedGasLimit * (95 # 100)) in
      setThis {| _gasMultiplier := _gasMultiplier self;
                 _blockGasLimit := Some blockGasLimit |} ;;;
      ret blockGasLimit
  end.

Definition _getMultipliedGasEstimation (params : list value) : M t value :=
  try_catch
    (realEstimation <- wrappedRequest Auxiliary (estimateGasRequest params) ;;
     self <- getThis ;;
     if Qeq_bool (_gasMultiplier self) 1 then ret realEstimation else
     normalGas <- lift (rpcQuantityToNumber realEstimation) ;;
     gasLimit <- _getBlockGasLimit ;;
     let multiplied := Qfloor (inject_Z normalGas * _gasMultiplier self) in
     let gas := if multiplied >? gasLimit then gasLimit - 1 else multiplied in
     ret (VStr (numberToRpcQuantity gas)))
    (fun error =>
       match error with
       | Err message =>
           if includes (toLowerCase message) "execution error" then
             blockGasLimit <- _getBlockGasLimit ;;
             ret (VStr (numberToRpcQuantity blockGasLimit))
           else throw error
       | NonError _ => throw error
       end).
End Methods.
End MultipliedGasEstimationProvider.

(** ** AutomaticGasProvider *)

Module AutomaticGasProvider.
Import MultipliedGasEstimationProvider.

Section Methods.
Context {P : EIP1193Provider} {RT : Runtime}.

Definition request (args : RequestArguments) : M t value :=
  args' <-
    (if String.eqb (method args) "eth_sendTransaction" then
       let params := _getParams args in
       let tx := firstParam params in
       if isUndefined tx then ret args else
       noGas <- propUndefined tx "gas" ;;
       if noGas then
         gas <- _getMultipliedGasEstimation params ;;
         tx' <- lift (setProp tx "gas" gas) ;;
         ret (withTx args tx')
       else ret args
     else ret args) ;;
  wrappedRequest Forwarded args'.

(** Requests served one after the other by one instance; the caller of a
    request that throws goes on with the next one. *)
Fixpoint serve (reqs : list RequestArguments) : M t unit :=
  match reqs with
  | [] => ret tt
  | args :: reqs' =>
      try_catch (request args ;;; ret tt) (fun _ => ret tt) ;;;
      serve reqs'
  end.
End Methods.
End AutomaticGasProvider.

(** ** AutomaticGasPriceProvider *)

Module AutomaticGasPriceProvider.
(* We pay the max base fee that can be required if the next
   EIP1559_BASE_FEE_MAX_FULL_BLOCKS_PREFERENCE are full. *)
Definition EIP1559_BASE_FEE_MAX_FULL_BLOCKS_PREFERENCE : Z := 3.

(* See eth_feeHistory for an explanation of what this means *)
Definition EIP1559_REWARD_PERCENTILE : Z := 50.

Record t : Type := {
  _nodeHasFeeHistory : option bool;
  _nodeSupportsEIP1559 : option bool
}.

Record FeePriceValues : Type := {
  maxFeePerGas : Z;
  maxPriorityFeePerGas : Z
}.

Definition gasPriceRequest : RequestArguments :=
  {| method := "eth_gasPrice"; params := None |}.

Definition feeHistoryRequest : RequestArguments :=
  {| method := "eth_feeHistory";
     params := Some [VStr "0x1"; VStr "latest";
                     VArr [VNum EIP1559_REWARD_PERCENTILE]] |}.

(** [flag === false] for an optional boolean field. *)
Definition isFalse (flag : option bool) : bool :=
  match flag with
  | Some false => true
  | _ => false
  end.

Section Methods.
Context {P : EIP1193Provider} {RT : Runtime}.

Definition _getGasPrice : M t Z :=
  response <- wrappedRequest Auxiliary gasPriceRequest ;;
  lift (rpcQuantityToBN response).

Definition _suggestEip1559FeePriceValues : M t (option FeePriceValues) :=
  self <- getThis ;;
  match _nodeSupportsEIP1559 self with
  | None =>
      block <- wrappedRequest Auxiliary latestBlockRequest ;;
      baseFeePerGas <- lift (getProp block "baseFeePerGas") ;;
      setThis {| _nodeHasFeeHistory := _nodeHasFeeHistory self;
                 _nodeSupportsEIP1559 :=
                   Some (negb (isUndefined baseFeePerGas)) |}
  | Some _ => ret tt
  end ;;;
  self <- getThis ;;
  if isFalse (_nodeHasFeeHistory self) ||
     isFalse (_nodeSupportsEIP1559 self)
  then ret None
  else
    try_catch
      (response <- wrappedRequest Auxiliary feeHistoryRequest ;;
       (* Each block increases the base fee by 1/8 at most, when full.
          We have the next block's base fee, so we compute a cap for the
          next N blocks here. *)
       baseFees <- lift (getProp response "baseFeePerGas") ;;
       nextBaseFee <- lift (index baseFees 1) ;;
       base <- lift (rpcQuantityToBN nextBaseFee) ;;
       rewards <- lift (getProp response "reward") ;;
       blockRewards <- lift (index rewards 0) ;;
       reward <- lift (index blockRewards 0) ;;
       priority <- lift (rpcQuantityToBN reward) ;;
       ret (Some
              {| maxFeePerGas :=
                   Z.quot
                     (base *
                      9 ^ (EIP1559_BASE_FEE_MAX_FULL_BLOCKS_PREFERENCE - 1))
                     (8 ^ (EIP1559_BASE_FEE_MAX_FULL_BLOCKS_PREFERENCE - 1));
                 maxPriorityFeePerGas := priority |}))
      (fun _ =>
         self' <- getThis ;;
         setThis {| _nodeHasFeeHistory := Some false;
                    _nodeSupportsEIP1559 := _nodeSupportsEIP1559 self' |} ;;;
         ret None).

(** The three pricing fields of the transaction are read once: nothing
    writes to the transaction before the final assignments. *)
Definition request (args : RequestArguments) : M t value :=
  if negb (String.eqb (method args) "eth_sendTransaction") then
    wrappedRequest Forwarded args
  else
  let params := _getParams args in
  let tx := firstParam params in
  if isUndefined tx then wrappedRequest Forwarded args else
  txGasPrice <- lift (getProp tx "gasPrice") ;;
  txMaxFee <- lift (getProp tx "maxFeePerGas") ;;
  txMaxPriorityFee <- lift (getProp tx "maxPriorityFeePerGas") ;;
  (* We don't need to do anything in these cases *)
  if negb (isUndefined txGasPrice) ||
     (negb (isUndefined txMaxFee) && negb (isUndefined txMaxPriorityFee))
  then wrappedRequest Forwarded args
  else
  suggested <- _suggestEip1559FeePriceValues ;;
  match suggested, isUndefined txMaxFee && isUndefined txMaxPriorityFee with
  | None, true =>
      (* eth_feeHistory failed, so we send a legacy one *)
      gasPrice <- _getGasPrice ;;
      tx' <- lift (setProp tx "gasPrice"
                     (VStr (numberToRpcQuantity gasPrice))) ;;
      wrappedRequest Forwarded (withTx args tx')
  | _, _ =>
      (* If eth_feeHistory failed, but the user still wants to send an
         EIP-1559 tx we use the gasPrice as default values. *)
      suggestedEip1559Values <-
        match suggested with
        | None =>
            gasPrice <- _getGasPrice ;;
            ret {| maxFeePerGas := gasPrice;
                   maxPriorityFeePerGas := gasPrice |}
        | Some values => ret values
        end ;;
      maxFee <- (if negb (isUndefined txMaxFee)
                 then lift (rpcQuantityToBN txMaxFee)
                 else ret (maxFeePerGas suggestedEip1559Values)) ;;
      maxPriorityFee <-
        (if negb (isUndefined txMaxPriorityFee)
         then lift (rpcQuantityToBN txMaxPriorityFee)
         else ret (maxPriorityFeePerGas suggestedEip1559Values)) ;;
      let maxFee :=
        if maxFee <? maxPriorityFee then maxFee + maxPriorityFee
        else maxFee in
      tx1 <- lift (setProp tx "maxFeePerGas"
                     (VStr (numberToRpcQuantity maxFee))) ;;
      tx2 <- lift (setProp tx1 "maxPriorityFeePerGas"
                     (VStr (numberToRpcQuantity maxPriorityFee))) ;;
      wrappedRequest Forwarded (withTx args tx2)
  end.
End Methods.
End AutomaticGasPriceProvider.

(** ** Providers used in the examples *)

(** A node whose answers depend on the method only.  [estimate] answers
    eth_estimateGas, [block] eth_getBlockByNumber, [price] eth_gasPrice and
    [history] eth_feeHistory; every other request is answered with a hash.
    Its state counts the requests received. *)
Definition scriptedNode (estimate block price history : outcome value)
  : EIP1193Provider :=
  {| World := nat;
     provider_request := fun req n =>
       ((if String.eqb (method req) "eth_estimateGas" then estimate
         else if String.eqb (method req) "eth_getBlockByNumber" then block
         else if String.eqb (method req) "eth_gasPrice" then price
         else if String.eqb (method req) "eth_feeHistory" then history
         else Returned (VStr "0xabc")),
        S n) |}.

(** A node that fails the first latest-block lookup it receives and answers
    the following ones. *)
Definition flakyNode (estimate block : value) : EIP1193Provider :=
  {| World := bool;
     provider_request := fun req failed =>
       if String.eqb (method req) "eth_estimateGas" then
         (Returned estimate, failed)
       else if String.eqb (method req) "eth_getBlockByNumber" then
         if failed then (Returned block, true)
         else (Threw (Err "connection refused"), true)
       else (Returned (VStr "0xabc"), failed) |}.

Definition v8 : Runtime :=
  {| typeErrorMessage := fun _ k =>
       ("Cannot read properties of undefined (reading '" ++ k ++ "')")%string;
     invalidQuantityMessage := fun _ => "invalid RPC quantity" |}.

Definition initial {P : EIP1193Provider} {F} (f : F) (w : World) : state F :=
  {| this := f; world := w; calls := [] |}.

Definition sendTransaction (tx : list (string * value)) : RequestArguments :=
  {| method := "eth_sendTransaction"; params := Some [VObj tx] |}.

Definition londonBlock : value :=
  VObj [("gasLimit", VStr "0x1c9c380"); ("baseFeePerGas", VStr "0x5a")].

Definition londonFeeHistory : value :=
  VObj [("oldestBlock", VStr "0x10");
        ("baseFeePerGas", VArr [VStr "0x5a"; VStr "0x64"]);
        ("reward", VArr [VArr [VStr "0x5"]])].

(** A node at block gas limit 30000000 that estimates 100000 gas, quotes a
    gas price of 7 and has a fee history with next base fee 100 and reward
    5. *)
Definition londonNode : EIP1193Provider :=
  scriptedNode
    (Returned (VStr "0x186a0"))
    (Returned londonBlock)
    (Returned (VStr "0x7"))
    (Returned londonFeeHistory).

(** A node with a base fee that does not serve eth_feeHistory. *)
Definition noHistoryNode : EIP1193Provider :=
  scriptedNode
    (Returned (VStr "0x186a0"))
    (Returned londonBlock)
    (Returned (VStr "0x7"))
    (Threw (Err "Method eth_feeHistory not found")).

(** A node that cannot be reached. *)
Definition offlineNode : EIP1193Provider :=
  scriptedNode
    (Threw (Err "connect ECONNREFUSED"))
    (Threw (Err "connect ECONNREFUSED"))
    (Threw (Err "connect ECONNREFUSED"))
    (Threw (Err "connect ECONNREFUSED")).

(** The fields of a new AutomaticGasPriceProvider. *)
Definition fresh : AutomaticGasPriceProvider.t :=
  {| AutomaticGasPriceProvider._nodeHasFeeHistory := None;
     AutomaticGasPriceProvider._nodeSupportsEIP1559 := None |}.

(** The same node when the estimated call reverts. *)
Definition revertingNode : EIP1193Provider :=
  scriptedNode
    (Threw (Err "VM Exception: Execution Error: revert"))
    (Returned (VObj [("gasLimit", VStr "0x1c9c380")]))
    (Returned (VStr "0x7"))
    (Threw (Err "Method eth_feeHistory not found")).

(** The same node when the estimation fails for another reason. *)
Definition unreachableNode : EIP1193Provider :=
  scriptedNode
    (Threw (Err "connect ECONNREFUSED"))
    (Returned (VObj [("gasLimit", VStr "0x1c9c380")]))
    (Returned (VStr "0x7"))
    (Threw (Err "connect ECONNREFUSED")).

Definition block40 : value := VObj [("gasLimit", VStr "0x28")].

(** A node at block gas limit 40 that estimates 19 gas. *)
Definition tinyNode : EIP1193Provider :=
  scriptedNode
    (Returned (VStr "0x13"))
    (Returned block40)
    (Returned (VStr "0x7"))
    (Threw (Err "Method eth_feeHistory not found")).

(** The fields of a new MultipliedGasEstimationProvider with multiplier [m]:
    no block gas limit is cached yet. *)
Definition multiplied (m : Q) : MultipliedGasEstimationProvider.t :=
  {| MultipliedGasEstimationProvider._gasMultiplier := m;
     MultipliedGasEstimationProvider._blockGasLimit := None |}.

(** ** Observing the requests sent to the wrapped provider *)

(** The state after the wrapped provider answered [req] with [r] and moved to
    [w]. *)
Definition answered {P : EIP1193Provider} {F} (s : state F) (o : origin)
  (req : RequestArguments) (r : outcome value) (w : World) : state F :=
  {| this := this s;
     world := w;
     calls := calls s ++
              [{| call_origin := o; call_request := req; call_response := r |}] |}.

(** A latest-block lookup the wrapper sends on its own account. *)
Definition isLatestBlockLookup (c : call) : bool :=
  match call_origin c with
  | Auxiliary => String.eqb (method (call_request c)) "eth_getBlockByNumber"
  | Forwarded => false
  end.

Definition latestBlockLookups (cs : list call) : list call :=
  filter isLatestBlockLookup cs.

(** [e instanceof Error && e.message.toLowerCase().includes("execution error")] *)
Definition isExecutionError (e : error) : bool :=
  match e with
  | Err message => includes (toLowerCase message) "execution error"
  | NonError _ => false
  end.

(** The gas limit that the answer to a latest-block lookup lets
    [_getBlockGasLimit] observe, if any: the lookup was answered, and the
    answer has a [gasLimit] that is a quantity. *)
Definition observedGasLimit {RT : Runtime} (c : call) : option Z :=
  match call_response c with
  | Returned block =>
      match getProp block "gasLimit" with
      | Returned q =>
          match rpcQuantityToNumber q with
          | Returned g => Some g
          | Threw _ => None
          end
      | Threw _ => None
      end
  | Threw _ => None
  end.

(** The cache of the block gas limit agrees with the lookups sent so far:
    while it is empty no lookup has observed a gas limit; once it is filled,
    the last lookup sent is the only one that observed a gas limit, and the
    cache holds 95% of it, rounded down. *)
Definition cacheConsistent {P : EIP1193Provider} {RT : Runtime}
  (s : state MultipliedGasEstimationProvider.t) : Prop :=
  match MultipliedGasEstimationProvider._blockGasLimit (this s) with
  | None =>
      Forall (fun c => observedGasLimit c = None) (latestBlockLookups (calls s))
  | Some L =>
      exists failed c g,
        latestBlockLookups (calls s) = failed ++ [c] /\
        Forall (fun c => observedGasLimit c = None) failed /\
        observedGasLimit c = Some g /\
        L = g * 95 / 100
  end.

(** A property that reads the fields of the instance and the latest-block
    lookups only. *)
Definition stable {P : EIP1193Provider}
  (I : state MultipliedGasEstimationProvider.t -> Prop) : Prop :=
  forall s s' : state MultipliedGasEstimationProvider.t,
    this s' = this s ->
    latestBlockLookups (calls s') = latestBlockLookups (calls s) ->
    I s -> I s'.

(** The cache holds [L] and the latest-block lookups sent so far are [ls]. *)
Definition cachedAt {P : EIP1193Provider} (L : Z) (ls : list call)
  (s : state MultipliedGasEstimationProvider.t) : Prop :=
  MultipliedGasEstimationProvider._blockGasLimit (this s) = Some L /\
  latestBlockLookups (calls s) = ls.

(** The fee history is known to be missing. *)
Definition feeHistoryUnsupported (f : AutomaticGasPriceProvider.t) : Prop :=
  AutomaticGasPriceProvider._nodeHasFeeHistory f = Some false.

(** A program keeps a property of the state, whether it returns or throws. *)
Definition preserves {P : EIP1193Provider} {F A}
  (I : state F -> Prop) (m : M F A) : Prop :=
  forall s, I s -> I (snd (m s)).

(** The state after the latest block [block] was looked up and found to have
    a base fee. *)
Definition supportFound {P : EIP1193Provider}
  (s : state AutomaticGasPriceProvider.t) (block : value) (w : World)
  : state AutomaticGasPriceProvider.t :=
  {| this :=
       {| AutomaticGasPriceProvider._nodeHasFeeHistory :=
            AutomaticGasPriceProvider._nodeHasFeeHistory (this s);
          AutomaticGasPriceProvider._nodeSupportsEIP1559 := Some true |};
     world := w;
     calls := calls (answered s Auxiliary latestBlockRequest
                       (Returned block) w) |}.

(** The state after the fee-history request threw [e]. *)
Definition feeHistoryFailed {P : EIP1193Provider}
  (s : state AutomaticGasPriceProvider.t) (e : error) (w : World)
  : state AutomaticGasPriceProvider.t :=
  {| this :=
       {| AutomaticGasPriceProvider._nodeHasFeeHistory := Some false;
          AutomaticGasPriceProvider._nodeSupportsEIP1559 := Some true |};
     world := w;
     calls := calls (answered s Auxiliary
                       AutomaticGasPriceProvider.feeHistoryRequest
                       (Threw e) w) |}.

(** The support for EIP-1559 is established from state [s], leaving the
    state [s']: the flag was already set, or the latest block, looked up now,
    has a base fee. *)
Inductive supportDetected {P : EIP1193Provider} {RT : Runtime}
  : state AutomaticGasPriceProvider.t -> state AutomaticGasPriceProvider.t
    -> Prop :=
| support_known s :
    AutomaticGasPriceProvider._nodeSupportsEIP1559 (this s) = Some true ->
    supportDetected s s
| support_found s block w baseFee :
    AutomaticGasPriceProvider._nodeSupportsEIP1559 (this s) = None ->
    provider_request latestBlockRequest (world s) = (Returned block, w) ->
    getProp block "baseFeePerGas" = Returned baseFee ->
    isUndefined baseFee = false ->
    supportDetected s (supportFound s block w).

(** The values used for the fields a transaction leaves out, from the
    suggestion made in state [s]: the suggested values, or the gas price for
    both when there is no suggestion. *)
Inductive defaultsFrom {P : EIP1193Provider} {RT : Runtime}
  : option AutomaticGasPriceProvider.FeePriceValues ->
    state AutomaticGasPriceProvider.t ->
    AutomaticGasPriceProvider.FeePriceValues ->
    state AutomaticGasPriceProvider.t -> Prop :=
| defaults_suggested values s : defaultsFrom (Some values) s values s
| defaults_gasPrice gasPrice s s' :
    AutomaticGasPriceProvider._getGasPrice s = (Returned gasPrice, s') ->
    defaultsFrom None s
      {| AutomaticGasPriceProvider.maxFeePerGas := gasPrice;
         AutomaticGasPriceProvider.maxPriorityFeePerGas := gasPrice |} s'.

(** The value resolved for a fee field: the transaction's own when it has
    one, else the default. *)
Definition resolved {RT : Runtime} (txValue : value) (default : Z)
  : outcome Z :=
  if isUndefined txValue then Returned default else rpcQuantityToBN txValue.

(** A node that throws an error with the given message at the first
    latest-block lookup it receives and answers the following ones. *)
Definition failingOnceNode (message : string) (estimate block : value)
  : EIP1193Provider :=
  {| World := bool;
     provider_request := fun req failed =>
       if String.eqb (method req) "eth_estimateGas" then
         (Returned estimate, failed)
       else if String.eqb (method req) "eth_getBlockByNumber" then
         if failed then (Returned block, true)
         else (Threw (Err message), true)
       else (Returned (VStr "0xabc"), failed) |}.

(** A node with a base fee whose fee history has no entry for the next
    block. *)
Definition shortHistoryNode : EIP1193Provider :=
  scriptedNode
    (Returned (VStr "0x186a0"))
    (Returned londonBlock)
    (Returned (VStr "0x7"))
    (Returned (VObj [("baseFeePerGas", VArr [VStr "0x5a"]);
                     ("reward", VArr [VArr [VStr "0x5"]])])).

(** ** Further observations on the wrappers *)

(** The request carries a transaction for the wrappers to look at: it is a
    send-transaction request and [params[0]] is not undefined. *)
Definition carriesTransaction (args : RequestArguments) : bool :=
  String.eqb (method args) "eth_sendTransaction" &&
  negb (isUndefined (firstParam (_getParams args))).

Definition isForwarded (c : call) : bool :=
  match call_origin c with
  | Forwarded => true
  | Auxiliary => false
  end.

(** The requests of the caller that reached the wrapped provider. *)
Definition forwardedCalls (cs : list call) : list call :=
  filter isForwarded cs.

(** The pricing of a transaction is settled: it has a [gasPrice], or both
    fee-market fields. *)
Definition priced (fields : list (string * value)) : bool :=
  negb (isUndefined (lookup "gasPrice" fields)) ||
  (negb (isUndefined (lookup "maxFeePerGas" fields)) &&
   negb (isUndefined (lookup "maxPriorityFeePerGas" fields))).

(** A wrapper as the wrapped provider of another wrapper: its state is the
    state of the inner wrapper, which holds the state of the provider further
    in. *)
Definition chained {P : EIP1193Provider} {F : Type}
  (request : RequestArguments -> M F value) : EIP1193Provider :=
  {| World := state F; provider_request := request |}.

(** Requests served one after the other by one instance of a wrapper; the
    caller of a request that throws goes on with the next one. *)
Fixpoint serveAll {P : EIP1193Provider} {F : Type}
  (request : RequestArguments -> M F value) (reqs : list RequestArguments)
  : M F unit :=
  match reqs with
  | [] => ret tt
  | args :: reqs' =>
      try_catch (request args ;;; ret tt) (fun _ => ret tt) ;;;
      serveAll request reqs'
  end.

(** The requests a program sent to the wrapped provider, after those of
    [before]. *)
Definition sentSince {P : EIP1193Provider} {F : Type}
  (before after : state F) : list call :=
  skipn (List.length (calls before)) (calls after).

(** A fee-history request the wrapper sends on its own account. *)
Definition isFeeHistoryRequest (c : call) : bool :=
  match call_origin c with
  | Auxiliary => String.eqb (method (call_request c)) "eth_feeHistory"
  | Forwarded => false
  end.

(** The fields of the instance satisfy [Q] and the requests selected by
    [select] that were sent so far are [sent]. *)
Definition settled {P : EIP1193Provider} {F : Type}
  (Q : F -> Prop) (select : call -> bool) (sent : list call) (s : state F)
  : Prop :=
  Q (this s) /\ filter select (calls s) = sent.

(** The state after a node without a base fee was asked for its gas price:
    the latest block [block] was looked up, then the gas price [price] was
    answered. *)
Definition legacyPriced {P : EIP1193Provider}
  (s : state AutomaticGasPriceProvider.t) (block price : value) (w : World)
  : state AutomaticGasPriceProvider.t :=
  {| this :=
       {| AutomaticGasPriceProvider._nodeHasFeeHistory :=
            AutomaticGasPriceProvider._nodeHasFeeHistory (this s);
          AutomaticGasPriceProvider._nodeSupportsEIP1559 := Some false |};
     world := w;
     calls := (calls s ++
               [{| call_origin := Auxiliary;
                   call_request := latestBlockRequest;
                   call_response := Returned block |}]) ++
              [{| call_origin := Auxiliary;
                  call_request := AutomaticGasPriceProvider.gasPriceRequest;
                  call_response := Returned price |}] |}.

(** The requests of the caller that reached the wrapped provider so far are
    [sent]. *)
Definition nothingForwarded {P : EIP1193Provider} (sent : list call)
  : state AutomaticGasPriceProvider.t -> Prop :=
  settled (fun _ => True) isForwarded sent.

(** FixedGasPriceProvider as the provider that a FixedGasProvider wraps. *)
Definition fixedPriceInside {P : EIP1193Provider} {RT : Runtime}
  : EIP1193Provider :=
  chained (FixedGasPriceProvider.request (P := P) (RT := RT)).

(** FixedGasProvider as the provider that a FixedGasPriceProvider wraps. *)
Definition fixedGasInside {P : EIP1193Provider} {RT : Runtime}
  : EIP1193Provider :=
  chained (FixedGasProvider.request (P := P) (RT := RT)).

(** The requests that reached the innermost provider of a chain of two
    wrappers while the outer one ran from [before] to [after]. *)
Definition reachedTransport {P : EIP1193Provider} {F : Type}
  (before after : state (P := P) F) : list RequestArguments :=
  map call_request (sentSince before after).

(** * Properties *)

(** ** The codec *)

Lemma of_pos_digits (p : positive) :
  forall rest, allHexDigits rest = true ->
    exists c s, HexString.Raw.of_pos p rest = String c s /\
                Ascii.eqb c "0" = false /\
                allHexDigits (String c s) = true.
Proof.
  revert p. fix IH 1. intros p rest Hrest.
  do 4 try destruct p as [p|p|];
    try (cbn; eexists; eexists; split; [reflexivity|];
         split; [reflexivity| cbn; exact Hrest]);
    cbn [HexString.Raw.of_pos]; apply IH; cbn; exact Hrest.
Qed.

Lemma decode_encode (n : Z) :
  0 <= n -> decodeQuantity (numberToRpcQuantity n) = Some n.
Proof.
  intros Hn. destruct n as [|p|p]; [reflexivity| |lia].
  unfold numberToRpcQuantity, HexString.of_pos, decodeQuantity.
  destruct (of_pos_digits p "" eq_refl) as (c & s & Heq & Hc & Hall).
  replace (Ascii.eqb "0" "0") with true by reflexivity.
  replace (Ascii.eqb "x" "x") with true by reflexivity.
  cbn [andb]. unfold quantityDigits. rewrite Heq, Hall, Hc. cbn [andb negb orb].
  rewrite <- Heq.
  rewrite (HexString.Raw.to_N_of_pos p "" 0%N). reflexivity.
Qed.

Lemma decode_nonneg (q : string) (n : Z) : decodeQuantity q = Some n -> 0 <= n.
Proof.
  unfold decodeQuantity. destruct q as [|c0 [|c1 ds]]; try discriminate.
  destruct (_ && _); [|discriminate]. intros [= <-]. apply N2Z.is_nonneg.
Qed.

(** ** Objects *)

Lemma lookup_assign_same k v ps : lookup k (assign k v ps) = v.
Proof.
  induction ps as [|[k' v'] ps IH]; cbn.
  - now rewrite String.eqb_refl.
  - destruct (String.eqb k k') eqn:E; cbn; rewrite ?String.eqb_refl, ?E; auto.
Qed.

Lemma lookup_assign_other k k' v ps :
  k <> k' -> lookup k (assign k' v ps) = lookup k ps.
Proof.
  intros Hk. apply String.eqb_neq in Hk.
  induction ps as [|[k0 v0] ps IH]; cbn.
  - now rewrite Hk.
  - destruct (String.eqb k' k0) eqn:E; cbn.
    + apply String.eqb_eq in E. subst k0. now rewrite Hk.
    + now rewrite IH.
Qed.

(** ** Running the monad *)

Ltac run :=
  cbv beta iota delta
    [bind ret lift getThis setThis wrappedRequest try_catch throw propUndefined
     answered supportFound feeHistoryFailed] in *;
  cbn [this world calls fst snd] in *.

(** ** MultipliedGasEstimationProvider *)

Section MultipliedGasEstimationFacts.
Context {P : EIP1193Provider} {RT : Runtime}.
Import MultipliedGasEstimationProvider.

Lemma getBlockGasLimit_cached (s : state t) (L : Z) :
  _blockGasLimit (this s) = Some L -> _getBlockGasLimit s = (Returned L, s).
Proof. intros H. unfold _getBlockGasLimit. run. now rewrite H. Qed.

Lemma getBlockGasLimit_fetch (s : state t) block w q g :
  _blockGasLimit (this s) = None ->
  provider_request latestBlockRequest (world s) = (Returned block, w) ->
  getProp block "gasLimit" = Returned q ->
  rpcQuantityToNumber q = Returned g ->
  _getBlockGasLimit s =
    (Returned (Qfloor (inject_Z g * (95 # 100))),
     {| this := {| _gasMultiplier := _gasMultiplier (this s);
                   _blockGasLimit :=
                     Some (Qfloor (inject_Z g * (95 # 100))) |};
        world := w;
        calls := calls (answered s Auxiliary latestBlockRequest
                          (Returned block) w) |}).
Proof.
  intros Hc Hw Hq Hg. unfold _getBlockGasLimit. run.
  now rewrite Hc, Hw, Hq, Hg.
Qed.

Lemma getBlockGasLimit_returned (s s' : state t) (L : Z) :
  _getBlockGasLimit s = (Returned L, s') ->
  _blockGasLimit (this s') = Some L /\
  _gasMultiplier (this s') = _gasMultiplier (this s).
Proof.
  unfold _getBlockGasLimit. run.
  destruct (_blockGasLimit (this s)) as [l|] eqn:Hc.
  - intros [= <- <-]. auto.
  - destruct (provider_request latestBlockRequest (world s)) as [[b|e] w];
      [|discriminate].
    destruct (getProp b "gasLimit") as [q|e]; [|discriminate].
    destruct (rpcQuantityToNumber q) as [g|e]; [|discriminate].
    intros [= <- <-]. auto.
Qed.

Lemma floor_scaled_nonneg (n : Z) (m : Q) :
  0 <= n -> (0 <= m)%Q -> 0 <= Qfloor (inject_Z n * m).
Proof.
  intros Hn Hm. change 0 with (Qfloor 0). apply Qfloor_resp_le.
  apply Qmult_le_0_compat; [|exact Hm].
  change 0%Q with (inject_Z 0). now rewrite <- Zle_Qle.
Qed.

(** The try block of [_getMultipliedGasEstimation] when the estimation and
    the block gas limit are both obtained. *)
Lemma multiplied_estimation_success params (s s2 : state t) q n w L :
  Qeq_bool (_gasMultiplier (this s)) 1 = false ->
  provider_request (estimateGasRequest params) (world s)
    = (Returned (VStr q), w) ->
  decodeQuantity q = Some n ->
  _getBlockGasLimit
    (answered s Auxiliary (estimateGasRequest params) (Returned (VStr q)) w)
    = (Returned L, s2) ->
  _getMultipliedGasEstimation params s =
    (Returned
       (VStr (numberToRpcQuantity
                (let multiplied :=
                   Qfloor (inject_Z n * _gasMultiplier (this s)) in
                 if multiplied >? L then L - 1 else multiplied))),
     s2).
Proof.
  intros Hm Hw Hq HL. unfold _getMultipliedGasEstimation. run.
  rewrite Hw. run. rewrite Hm. unfold rpcQuantityToNumber, rpcQuantityToBN.
  rewrite Hq. now rewrite HL.
Qed.
End MultipliedGasEstimationFacts.

Section MultipliedGasEstimationClaims.
Context {P : EIP1193Provider} {RT : Runtime}.
Import MultipliedGasEstimationProvider.


(** C2.  When the remote estimation throws an error whose lower-cased
    message contains "execution error", the estimation returns the block
    gas limit of [_getBlockGasLimit], encoded as a quantity, and that limit
    is the cached one; when it throws anything else, the same error is
    thrown to the caller and nothing further is asked of the provider. *)
Theorem C2_execution_error_falls_back_to_limit
  params (s : state t) (e : error) (w : World) :
  provider_request (estimateGasRequest params) (world s) = (Threw e, w) ->
  let s1 := answered s Auxiliary (estimateGasRequest params) (Threw e) w in
  (isExecutionError e = true ->
   forall L s2, _getBlockGasLimit s1 = (Returned L, s2) ->
     _getMultipliedGasEstimation params s
       = (Returned (VStr (numberToRpcQuantity L)), s2) /\
     _blockGasLimit (this s2) = Some L) /\
  (isExecutionError e = false ->
   _getMultipliedGasEstimation params s = (Threw e, s1)).
Proof.
  intros Hw s1. subst s1. split.
  - intros He L s2 HL. split; [|apply (getBlockGasLimit_returned _ _ _ HL)].
    unfold _getMultipliedGasEstimation. run. rewrite Hw. run.
    destruct e as [message|v]; [|discriminate]. cbn in He. rewrite He.
    now rewrite HL.
  - intros He. unfold _getMultipliedGasEstimation. run. rewrite Hw. run.
    destruct e as [message|v]; [|reflexivity]. cbn in He. now rewrite He.
Qed.

(** C6.  When the gas multiplier equals 1 and the remote estimation
    answers, the estimation returns that answer as it is, the only request
    sent to the wrapped provider is the estimation, and in particular no
    latest-block lookup is sent. *)
Theorem C6_multiplier_one_returns_raw_estimate
  params (s : state t) (v : value) (w : World) :
  (_gasMultiplier (this s) == 1)%Q ->
  provider_request (estimateGasRequest params) (world s) = (Returned v, w) ->
  let s' := answered s Auxiliary (estimateGasRequest params) (Returned v) w in
  _getMultipliedGasEstimation params s = (Returned v, s') /\
  latestBlockLookups (calls s') = latestBlockLookups (calls s).
Proof.
  intros Hm Hw s'. subst s'. split.
  - apply Qeq_bool_iff in Hm.
    unfold _getMultipliedGasEstimation. run. rewrite Hw. run.
    now rewrite Hm.
  - unfold latestBlockLookups, answered. cbn [calls].
    rewrite filter_app. cbn. now rewrite app_nil_r.
Qed.
End MultipliedGasEstimationClaims.

Module MultipliedGasEstimationExamples.
Import MultipliedGasEstimationProvider.



(** An estimation that throws "VM Exception: Execution Error: revert" gives
    the cached limit 28500000. *)
Lemma C2_witness :
  let s := initial (P := revertingNode) (multiplied (3 # 2)) 0%nat in
  let e := Err "VM Exception: Execution Error: revert" in
  let s1 := answered s Auxiliary (estimateGasRequest [VObj []]) (Threw e)
              1%nat in
  let s2 := snd (_getBlockGasLimit (RT := v8) s1) in
  _getMultipliedGasEstimation (RT := v8) [VObj []] s
    = (Returned (VStr (numberToRpcQuantity 28500000)), s2) /\
  _blockGasLimit (this s2) = Some 28500000.
Proof.
  intros s e s1 s2.
  apply (proj1 (C2_execution_error_falls_back_to_limit
                  (P := revertingNode) (RT := v8)
                  [VObj []] s e 1%nat eq_refl) eq_refl 28500000 s2 eq_refl).
Defined.

(** Multiplier 1: the estimate 0x186a0 comes back as it is. *)
Lemma C6_witness :
  let s := initial (P := londonNode) (multiplied 1) 0%nat in
  let s' := answered s Auxiliary (estimateGasRequest [VObj []])
              (Returned (VStr "0x186a0")) 1%nat in
  _getMultipliedGasEstimation (RT := v8) [VObj []] s
    = (Returned (VStr "0x186a0"), s') /\
  latestBlockLookups (calls s') = latestBlockLookups (calls s).
Proof.
  intros s s'.
  apply (C6_multiplier_one_returns_raw_estimate (P := londonNode) (RT := v8)
           [VObj []] s (VStr "0x186a0") 1%nat);
    reflexivity.
Defined.
End MultipliedGasEstimationExamples.

(** ** Properties kept by the programs of the monad *)

Section Preservation.
Context {P : EIP1193Provider} {F : Type} (I : state F -> Prop).

Lemma preserves_ret {A} (a : A) : preserves I (ret a).
Proof. intros s H. exact H. Qed.

Lemma preserves_throw {A} (e : error) : preserves I (throw (A := A) e).
Proof. intros s H. exact H. Qed.

Lemma preserves_lift {A} (o : outcome A) : preserves I (lift o).
Proof. intros s H. exact H. Qed.

Lemma preserves_getThis : preserves I getThis.
Proof. intros s H. exact H. Qed.

Lemma preserves_bind {A B} (m : M F A) (k : A -> M F B) :
  preserves I m -> (forall a, preserves I (k a)) -> preserves I (bind m k).
Proof.
  intros Hm Hk s H. unfold bind. specialize (Hm s H).
  destruct (m s) as [[a|e] s']; cbn in *; [now apply Hk|exact Hm].
Qed.

Lemma preserves_try_catch {A} (m : M F A) (h : error -> M F A) :
  preserves I m -> (forall e, preserves I (h e)) ->
  preserves I (try_catch m h).
Proof.
  intros Hm Hh s H. unfold try_catch. specialize (Hm s H).
  destruct (m s) as [[a|e] s']; cbn in *; [exact Hm|now apply Hh].
Qed.

Lemma preserves_propUndefined {RT : Runtime} (tx : value) (k : string) :
  preserves I (propUndefined tx k).
Proof.
  unfold propUndefined. apply preserves_bind;
    [apply preserves_lift|intro; apply preserves_ret].
Qed.
End Preservation.

Ltac preserve_with leaf :=
  repeat first
    [ leaf
    | apply preserves_ret
    | apply preserves_throw
    | apply preserves_lift
    | apply preserves_getThis
    | apply preserves_propUndefined
    | apply preserves_bind; [|intro]
    | apply preserves_try_catch; [|intro]
    | match goal with
      | |- preserves _ (if ?b then _ else _) => destruct b
      | |- preserves _ (match ?x with _ => _ end) => destruct x
      | |- preserves _ (let _ := _ in _) => cbv zeta
      end ].

(** ** The cache of the block gas limit *)

Section BlockGasLimitCache.
Context {P : EIP1193Provider} {RT : Runtime}.
Import MultipliedGasEstimationProvider.

Lemma lookups_snoc (cs : list call) (c : call) :
  latestBlockLookups (cs ++ [c]) =
    if isLatestBlockLookup c then latestBlockLookups cs ++ [c]
    else latestBlockLookups cs.
Proof.
  unfold latestBlockLookups. rewrite filter_app. cbn.
  destruct (isLatestBlockLookup c); [reflexivity|apply app_nil_r].
Qed.

Lemma preserves_other_request (I : state t -> Prop) o req :
  stable I ->
  (forall r, isLatestBlockLookup
               {| call_origin := o; call_request := req; call_response := r |}
             = false) ->
  preserves I (wrappedRequest o req).
Proof.
  intros HI Hreq s H. unfold wrappedRequest.
  destruct (provider_request req (world s)) as [r w]. cbn [snd].
  apply (HI s); [reflexivity| |exact H]. cbn [calls].
  now rewrite lookups_snoc, Hreq.
Qed.

Lemma floor_95 (g : Z) : Qfloor (inject_Z g * (95 # 100)) = g * 95 / 100.
Proof. reflexivity. Qed.

Section Programs.
Variable I : state t -> Prop.
Hypothesis I_stable : stable I.
Hypothesis I_getBlockGasLimit : preserves I _getBlockGasLimit.

Lemma preserves_getMultipliedGasEstimation params :
  preserves I (_getMultipliedGasEstimation params).
Proof.
  unfold _getMultipliedGasEstimation.
  preserve_with ltac:(apply I_getBlockGasLimit);
    apply preserves_other_request; [exact I_stable|reflexivity].
Qed.

Lemma preserves_request args : preserves I (AutomaticGasProvider.request args).
Proof.
  unfold AutomaticGasProvider.request.
  preserve_with ltac:(apply preserves_getMultipliedGasEstimation);
    apply preserves_other_request; [exact I_stable|reflexivity].
Qed.

Lemma preserves_serve reqs : preserves I (AutomaticGasProvider.serve reqs).
Proof.
  induction reqs as [|args reqs IH]; cbn [AutomaticGasProvider.serve].
  - apply preserves_ret.
  - preserve_with ltac:(first [apply preserves_request|exact IH]).
Qed.
End Programs.

Lemma cacheConsistent_stable : stable cacheConsistent.
Proof.
  intros s s' Hthis Hcalls. unfold cacheConsistent.
  now rewrite Hthis, Hcalls.
Qed.

Lemma cacheConsistent_getBlockGasLimit :
  preserves cacheConsistent _getBlockGasLimit.
Proof.
  intros s H. unfold _getBlockGasLimit. run.
  destruct (_blockGasLimit (this s)) as [L|] eqn:Hc; [exact H|].
  unfold cacheConsistent in H. rewrite Hc in H.
  destruct (provider_request latestBlockRequest (world s)) as [r w] eqn:Hw.
  pose (c := {| call_origin := Auxiliary;
                call_request := latestBlockRequest;
                call_response := r |}).
  assert (Hnone : observedGasLimit c = None ->
    cacheConsistent {| this := this s; world := w; calls := calls s ++ [c] |}).
  { intros Hobs. unfold cacheConsistent. cbn [this calls]. rewrite Hc.
    rewrite lookups_snoc. cbn. apply Forall_app. split; [exact H|].
    constructor; [exact Hobs|constructor]. }
  destruct r as [block|e]; cbn [snd]; [|now apply Hnone].
  destruct (getProp block "gasLimit") as [q|e] eqn:Hq; cbn [snd];
    [|apply Hnone; unfold observedGasLimit; cbn; now rewrite Hq].
  destruct (rpcQuantityToNumber q) as [g|e] eqn:Hg; cbn [snd];
    [|apply Hnone; unfold observedGasLimit; cbn; now rewrite Hq, Hg].
  unfold cacheConsistent. cbn [this calls _blockGasLimit].
  exists (latestBlockLookups (calls s)), c, g.
  rewrite lookups_snoc. cbn. repeat split; [exact H| ].
  unfold observedGasLimit. cbn. now rewrite Hq, Hg.
Qed.

Lemma cachedAt_stable L ls : stable (cachedAt L ls).
Proof.
  intros s s' Hthis Hcalls. unfold cachedAt. now rewrite Hthis, Hcalls.
Qed.

Lemma cachedAt_getBlockGasLimit L ls :
  preserves (cachedAt L ls) _getBlockGasLimit.
Proof.
  intros s H. rewrite (getBlockGasLimit_cached s L (proj1 H)). exact H.
Qed.
End BlockGasLimitCache.

Section BlockGasLimitClaims.
Context {P : EIP1193Provider} {RT : Runtime}.
Import MultipliedGasEstimationProvider.

End BlockGasLimitClaims.

Module BlockGasLimitExamples.
Import MultipliedGasEstimationProvider.


End BlockGasLimitExamples.

(** ** FixedGasPriceProvider *)

Section FixedGasPriceClaims.
Context {P : EIP1193Provider} {RT : Runtime}.
Import FixedGasPriceProvider.

End FixedGasPriceClaims.

Module FixedGasPriceExamples.
Import FixedGasPriceProvider.

End FixedGasPriceExamples.

(** ** AutomaticGasPriceProvider *)

Section AutomaticGasPriceFacts.
Context {P : EIP1193Provider} {RT : Runtime}.
Import AutomaticGasPriceProvider.

Lemma isUndefined_false (v : value) : v <> VUndefined <-> isUndefined v = false.
Proof. destruct v; cbn; split; congruence. Qed.

(** The head of [request] on a send-transaction request that holds a
    transaction object. *)
Lemma request_unfold args fields rest (s : state t) :
  method args = "eth_sendTransaction" ->
  params args = Some (VObj fields :: rest) ->
  request args s =
    (if negb (isUndefined (lookup "gasPrice" fields)) ||
        (negb (isUndefined (lookup "maxFeePerGas" fields)) &&
         negb (isUndefined (lookup "maxPriorityFeePerGas" fields)))
     then wrappedRequest Forwarded args s
     else
       match _suggestEip1559FeePriceValues s with
       | (Threw e, s1) => (Threw e, s1)
       | (Returned suggested, s1) =>
           match suggested,
                 isUndefined (lookup "maxFeePerGas" fields) &&
                 isUndefined (lookup "maxPriorityFeePerGas" fields) with
           | None, true =>
               (gasPrice <- _getGasPrice ;;
                wrappedRequest Forwarded
                  (withTx args
                     (VObj (assign "gasPrice"
                              (VStr (numberToRpcQuantity gasPrice)) fields))))
                 s1
           | _, _ =>
               (defaults <-
                  match suggested with
                  | None =>
                      gasPrice <- _getGasPrice ;;
                      ret {| maxFeePerGas := gasPrice;
                             maxPriorityFeePerGas := gasPrice |}
                  | Some values => ret values
                  end ;;
                fee <- lift (resolved (lookup "maxFeePerGas" fields)
                               (maxFeePerGas defaults)) ;;
                priority <- lift (resolved (lookup "maxPriorityFeePerGas" fields)
                                    (maxPriorityFeePerGas defaults)) ;;
                wrappedRequest Forwarded
                  (withTx args
                     (VObj (assign "maxPriorityFeePerGas"
                              (VStr (numberToRpcQuantity priority))
                              (assign "maxFeePerGas"
                                 (VStr (numberToRpcQuantity
                                          (if fee <? priority
                                           then fee + priority else fee)))
                                 fields)))))
                 s1
           end
       end).
Proof.
  intros Hm Hp. unfold request at 1, _getParams. rewrite Hm, Hp.
  replace ("eth_sendTransaction" =? "eth_sendTransaction")%string with true
    by reflexivity.
  cbn [negb firstParam nth isUndefined]. unfold resolved.
  cbv beta iota delta [bind ret lift]. cbn [getProp setProp].
  destruct (negb (isUndefined (lookup "gasPrice" fields)) || _);
    [reflexivity|].
  destruct (_suggestEip1559FeePriceValues s) as [[suggested|e] s1];
    [|reflexivity].
  destruct suggested as [values|];
    destruct (isUndefined (lookup "maxFeePerGas" fields));
    destruct (isUndefined (lookup "maxPriorityFeePerGas" fields));
    cbn [andb negb]; try reflexivity.
Qed.
End AutomaticGasPriceFacts.

Section AutomaticGasPriceFeeMarket.
Context {P : EIP1193Provider} {RT : Runtime}.
Import AutomaticGasPriceProvider.

(** The fee-market branch of [request]: the transaction has no gas price and
    lacks a fee field, and either there is a suggestion or the transaction
    has a fee field. *)
Lemma request_fee_market
  args fields rest (s s1 s2 : state t) suggested defaults fee priority :
  method args = "eth_sendTransaction" ->
  params args = Some (VObj fields :: rest) ->
  isUndefined (lookup "gasPrice" fields) = true ->
  isUndefined (lookup "maxFeePerGas" fields) ||
  isUndefined (lookup "maxPriorityFeePerGas" fields) = true ->
  _suggestEip1559FeePriceValues s = (Returned suggested, s1) ->
  (suggested = None ->
   isUndefined (lookup "maxFeePerGas" fields) &&
   isUndefined (lookup "maxPriorityFeePerGas" fields) = false) ->
  defaultsFrom suggested s1 defaults s2 ->
  resolved (lookup "maxFeePerGas" fields) (maxFeePerGas defaults)
    = Returned fee ->
  resolved (lookup "maxPriorityFeePerGas" fields)
    (maxPriorityFeePerGas defaults) = Returned priority ->
  request args s =
    wrappedRequest Forwarded
      (withTx args
         (VObj (assign "maxPriorityFeePerGas"
                  (VStr (numberToRpcQuantity priority))
                  (assign "maxFeePerGas"
                     (VStr (numberToRpcQuantity
                              (if fee <? priority then fee + priority
                               else fee)))
                     fields))))
      s2.
Proof.
  intros Hm Hp Hgp Hone Hsug Hlegacy Hdef Hfee Hprio.
  rewrite (request_unfold args fields rest s Hm Hp), Hgp, Hsug.
  replace (negb (isUndefined (lookup "maxFeePerGas" fields)) &&
           negb (isUndefined (lookup "maxPriorityFeePerGas" fields)))
    with false
    by (destruct (isUndefined (lookup "maxFeePerGas" fields)),
          (isUndefined (lookup "maxPriorityFeePerGas" fields));
        cbn in *; congruence).
  cbn [negb orb].
  destruct Hdef as [values s1|gasPrice s1 s2 Hprice].
  - run. rewrite Hfee, Hprio.
    destruct (isUndefined (lookup "maxFeePerGas" fields) &&
              isUndefined (lookup "maxPriorityFeePerGas" fields));
      reflexivity.
  - rewrite (Hlegacy eq_refl). run. rewrite Hprice. cbn [maxFeePerGas
      maxPriorityFeePerGas] in *. now rewrite Hfee, Hprio.
Qed.


(** C7.  A send-transaction request whose transaction has a [gasPrice], or
    has both [maxFeePerGas] and [maxPriorityFeePerGas], whatever their
    values, is forwarded as it is: the fields of the instance are unchanged
    and the forwarded request is the only one sent to the wrapped
    provider. *)
Theorem C7_priced_transaction_forwarded_unchanged
  args fields rest (s : state t) :
  method args = "eth_sendTransaction" ->
  params args = Some (VObj fields :: rest) ->
  lookup "gasPrice" fields <> VUndefined \/
  (lookup "maxFeePerGas" fields <> VUndefined /\
   lookup "maxPriorityFeePerGas" fields <> VUndefined) ->
  request args s = wrappedRequest Forwarded args s /\
  this (snd (request args s)) = this s /\
  calls (snd (request args s)) =
    calls s ++ [{| call_origin := Forwarded;
                   call_request := args;
                   call_response := fst (provider_request args (world s)) |}].
Proof.
  intros Hm Hp Hpriced.
  assert (H : request args s = wrappedRequest Forwarded args s).
  { rewrite (request_unfold args fields rest s Hm Hp).
    destruct Hpriced as [Hgp|[Hfee Hprio]].
    - apply isUndefined_false in Hgp. now rewrite Hgp.
    - apply isUndefined_false in Hfee, Hprio. rewrite Hfee, Hprio.
      cbn [negb andb]. now rewrite orb_true_r. }
  rewrite H. split; [reflexivity|]. unfold wrappedRequest.
  destruct (provider_request args (world s)); split; reflexivity.
Qed.

End AutomaticGasPriceFeeMarket.

Section AutomaticGasPriceProjection.
Context {P : EIP1193Provider} {RT : Runtime}.
Import AutomaticGasPriceProvider.

(** A property of the fields of the instance is kept by any request to the
    wrapped provider. *)
Lemma preserves_fields_request {F} (Q : F -> Prop) o req :
  preserves (fun s : state F => Q (this s)) (wrappedRequest o req).
Proof.
  intros s H. unfold wrappedRequest.
  destruct (provider_request req (world s)). exact H.
Qed.

Lemma suggest_unsupported (s : state t) :
  feeHistoryUnsupported (this s) ->
  feeHistoryUnsupported (this (snd (_suggestEip1559FeePriceValues s))) /\
  forall values,
    fst (_suggestEip1559FeePriceValues s) <> Returned (Some values).
Proof.
  unfold feeHistoryUnsupported. intros H.
  unfold _suggestEip1559FeePriceValues. run.
  destruct (_nodeSupportsEIP1559 (this s)) as [b|].
  - run. rewrite H. cbn. split; [exact H|discriminate].
  - destruct (provider_request latestBlockRequest (world s)) as [[block|e] w];
      run; [|split; [exact H|discriminate]].
    destruct (getProp block "baseFeePerGas") as [baseFee|e];
      run; [|split; [exact H|discriminate]].
    rewrite H. cbn. split; [reflexivity|discriminate].
Qed.

Lemma preserves_suggest_unsupported :
  preserves (fun s : state t => feeHistoryUnsupported (this s))
    _suggestEip1559FeePriceValues.
Proof. intros s H. apply (suggest_unsupported s H). Qed.

Lemma preserves_request_unsupported args :
  preserves (fun s : state t => feeHistoryUnsupported (this s)) (request args).
Proof.
  unfold request, _getGasPrice.
  preserve_with ltac:(first [ apply preserves_suggest_unsupported
                            | apply preserves_fields_request ]).
Qed.

(** The projection once the support for EIP-1559 is established and the fee
    history is not known to be missing: it is what the fee-history request
    and the decoding of its answer give. *)
Lemma suggest_detected (s s1 : state t) :
  supportDetected s s1 ->
  isFalse (_nodeHasFeeHistory (this s)) = false ->
  _nodeHasFeeHistory (this s1) = _nodeHasFeeHistory (this s) /\
  _nodeSupportsEIP1559 (this s1) = Some true /\
  _suggestEip1559FeePriceValues s =
    match provider_request feeHistoryRequest (world s1) with
    | (Returned response, w) =>
        let s2 := answered s1 Auxiliary feeHistoryRequest (Returned response) w in
        match
          (baseFees <- lift (getProp response "baseFeePerGas") ;;
           nextBaseFee <- lift (index baseFees 1) ;;
           base <- lift (rpcQuantityToBN nextBaseFee) ;;
           rewards <- lift (getProp response "reward") ;;
           blockRewards <- lift (index rewards 0) ;;
           reward <- lift (index blockRewards 0) ;;
           priority <- lift (rpcQuantityToBN reward) ;;
           ret (Z.quot (base * 9 ^ 2) (8 ^ 2), priority)) s2
        with
        | (Returned (fee, priority), _) =>
            (Returned (Some {| maxFeePerGas := fee;
                               maxPriorityFeePerGas := priority |}), s2)
        | (Threw _, _) =>
            (Returned None,
             {| this := {| _nodeHasFeeHistory := Some false;
                           _nodeSupportsEIP1559 := Some true |};
                world := w;
                calls := calls s2 |})
        end
    | (Threw e, w) =>
        (Returned None,
         {| this := {| _nodeHasFeeHistory := Some false;
                       _nodeSupportsEIP1559 := Some true |};
            world := w;
            calls := calls (answered s1 Auxiliary feeHistoryRequest
                              (Threw e) w) |})
    end.
Proof.
  intros Hdet Hhist.
  destruct Hdet as [s Hsup|s block w0 baseFee Hsup Hw Hbase Hdef];
    (split; [reflexivity|]); (split; [try assumption; reflexivity|]);
    unfold _suggestEip1559FeePriceValues; run; rewrite Hsup.
  - run. rewrite Hhist, Hsup. cbn [isFalse orb]. run.
    destruct (provider_request feeHistoryRequest (world s))
      as [[response|e] w]; run; [|cbn; now rewrite ?Hsup].
    destruct (getProp response "baseFeePerGas") as [v1|]; [|cbn; now rewrite ?Hsup].
    destruct (index v1 1) as [v2|]; [|cbn; now rewrite ?Hsup].
    destruct (rpcQuantityToBN v2) as [v3|]; [|cbn; now rewrite ?Hsup].
    destruct (getProp response "reward") as [v4|]; [|cbn; now rewrite ?Hsup].
    destruct (index v4 0) as [v5|]; [|cbn; now rewrite ?Hsup].
    destruct (index v5 0) as [v6|]; [|cbn; now rewrite ?Hsup].
    destruct (rpcQuantityToBN v6) as [v7|]; [|cbn; now rewrite ?Hsup].
    cbn. reflexivity.
  - rewrite Hw. run. rewrite Hbase. run.
    cbn [_nodeHasFeeHistory _nodeSupportsEIP1559].
    rewrite Hdef, Hhist. cbn [negb isFalse orb]. run.
    destruct (provider_request feeHistoryRequest w0)
      as [[response|e] w']; run; [|cbn; reflexivity].
    destruct (getProp response "baseFeePerGas") as [v1|]; [|cbn; reflexivity].
    destruct (index v1 1) as [v2|]; [|cbn; reflexivity].
    destruct (rpcQuantityToBN v2) as [v3|]; [|cbn; reflexivity].
    destruct (getProp response "reward") as [v4|]; [|cbn; reflexivity].
    destruct (index v4 0) as [v5|]; [|cbn; reflexivity].
    destruct (index v5 0) as [v6|]; [|cbn; reflexivity].
    destruct (rpcQuantityToBN v6) as [v7|]; cbn; reflexivity.
Qed.
End AutomaticGasPriceProjection.

Section AutomaticGasPriceProjectionClaims.
Context {P : EIP1193Provider} {RT : Runtime}.
Import AutomaticGasPriceProvider.

(** C3.  When the node supports EIP-1559 and the fee-history request (one
    block, latest, percentile 50) is answered with
    [baseFeePerGas = [b0, b1]] and [reward = [[r]]], the projection returns
    [maxPriorityFeePerGas = r] and
    [maxFeePerGas = floor (b1 * 81 / 64)], which is
    [floor (b1 * 9^(N-1) / 8^(N-1))] for the full-blocks preference
    [N = 3], in integer arithmetic. *)
Theorem C3_fee_market_projection
  (s s1 : state t) response (w : World) b0 qb1 qr (b1 r : Z) :
  supportDetected s s1 ->
  isFalse (_nodeHasFeeHistory (this s)) = false ->
  provider_request feeHistoryRequest (world s1) = (Returned response, w) ->
  getProp response "baseFeePerGas" = Returned (VArr [b0; VStr qb1]) ->
  getProp response "reward" = Returned (VArr [VArr [VStr qr]]) ->
  decodeQuantity qb1 = Some b1 ->
  decodeQuantity qr = Some r ->
  _suggestEip1559FeePriceValues s =
    (Returned (Some {| maxFeePerGas := b1 * 81 / 64;
                       maxPriorityFeePerGas := r |}),
     answered s1 Auxiliary feeHistoryRequest (Returned response) w) /\
  b1 * 81 / 64 =
    b1 * 9 ^ (EIP1559_BASE_FEE_MAX_FULL_BLOCKS_PREFERENCE - 1) /
    8 ^ (EIP1559_BASE_FEE_MAX_FULL_BLOCKS_PREFERENCE - 1) /\
  EIP1559_BASE_FEE_MAX_FULL_BLOCKS_PREFERENCE = 3 /\
  params feeHistoryRequest =
    Some [VStr "0x1"; VStr "latest"; VArr [VNum 50]].
Proof.
  intros Hdet Hhist Hw Hbase Hreward Hb1 Hr.
  split; [|repeat split].
  destruct (suggest_detected s s1 Hdet Hhist) as (_ & _ & ->).
  rewrite Hw. run. rewrite Hbase, Hreward. cbn [index nth].
  unfold rpcQuantityToBN. rewrite Hb1, Hr.
  pose proof (decode_nonneg qb1 b1 Hb1) as Hnonneg.
  rewrite Z.quot_div_nonneg by lia. reflexivity.
Qed.

(** C10.  (1) A fee-history request that throws, whatever it throws, is
    caught: the projection returns no values and sets the fee-history flag
    to false.  (2) The flag then stays false through every request, and (3)
    while it is false the projection never returns values, and sends nothing
    once the support for EIP-1559 is known.  (4) A latest-block lookup that
    throws during the detection of EIP-1559 is not caught: the projection
    throws the same error, and so does a send-transaction request that needs
    the projection; the support flag stays unset. *)
Theorem C10_only_fee_history_failure_is_caught :
  (forall (s s1 : state t) e w,
     supportDetected s s1 ->
     isFalse (_nodeHasFeeHistory (this s)) = false ->
     provider_request feeHistoryRequest (world s1) = (Threw e, w) ->
     _suggestEip1559FeePriceValues s
       = (Returned None, feeHistoryFailed s1 e w) /\
     _nodeHasFeeHistory (this (feeHistoryFailed s1 e w)) = Some false) /\
  (forall args (s : state t),
     _nodeHasFeeHistory (this s) = Some false ->
     _nodeHasFeeHistory (this (snd (request args s))) = Some false) /\
  (forall s : state t,
     _nodeHasFeeHistory (this s) = Some false ->
     (forall values,
        fst (_suggestEip1559FeePriceValues s) <> Returned (Some values)) /\
     (_nodeSupportsEIP1559 (this s) <> None ->
      _suggestEip1559FeePriceValues s = (Returned None, s))) /\
  (forall (s : state t) e w,
     _nodeSupportsEIP1559 (this s) = None ->
     provider_request latestBlockRequest (world s) = (Threw e, w) ->
     let s1 := answered s Auxiliary latestBlockRequest (Threw e) w in
     _suggestEip1559FeePriceValues s = (Threw e, s1) /\
     _nodeSupportsEIP1559 (this s1) = None /\
     forall args fields rest,
       method args = "eth_sendTransaction" ->
       params args = Some (VObj fields :: rest) ->
       isUndefined (lookup "gasPrice" fields) = true ->
       isUndefined (lookup "maxFeePerGas" fields) ||
       isUndefined (lookup "maxPriorityFeePerGas" fields) = true ->
       request args s = (Threw e, s1)).
Proof.
  split; [|split; [|split]].
  - intros s s1 e w Hdet Hhist Hw.
    destruct (suggest_detected s s1 Hdet Hhist) as (_ & _ & ->).
    now rewrite Hw.
  - intros args s H. now apply (preserves_request_unsupported args s).
  - intros s H. split; [apply (suggest_unsupported s H)|].
    intros Hsup. unfold _suggestEip1559FeePriceValues. run.
    destruct (_nodeSupportsEIP1559 (this s)) as [b|]; [|congruence].
    run. now rewrite H.
  - intros s e w Hsup Hw s1. subst s1.
    assert (Hsuggest : _suggestEip1559FeePriceValues s =
              (Threw e, answered s Auxiliary latestBlockRequest (Threw e) w)).
    { unfold _suggestEip1559FeePriceValues. run. now rewrite Hsup, Hw. }
    split; [exact Hsuggest|]. split; [exact Hsup|].
    intros args fields rest Hm Hp Hgp Hone.
    rewrite (request_unfold args fields rest s Hm Hp), Hgp, Hsuggest.
    destruct (isUndefined (lookup "maxFeePerGas" fields)),
      (isUndefined (lookup "maxPriorityFeePerGas" fields));
      try discriminate; reflexivity.
Qed.
End AutomaticGasPriceProjectionClaims.

Module AutomaticGasPriceExamples.
Import AutomaticGasPriceProvider.

(** Next base fee 100 and reward 5 give the cap 126 and the priority fee 5. *)
Lemma C3_witness :
  let s := initial (P := londonNode) fresh 0%nat in
  let s1 := supportFound s londonBlock 1%nat in
  _suggestEip1559FeePriceValues (RT := v8) s =
    (Returned (Some {| maxFeePerGas := 100 * 81 / 64;
                       maxPriorityFeePerGas := 5 |}),
     answered s1 Auxiliary feeHistoryRequest (Returned londonFeeHistory)
       2%nat) /\
  100 * 81 / 64 =
    100 * 9 ^ (EIP1559_BASE_FEE_MAX_FULL_BLOCKS_PREFERENCE - 1) /
    8 ^ (EIP1559_BASE_FEE_MAX_FULL_BLOCKS_PREFERENCE - 1) /\
  EIP1559_BASE_FEE_MAX_FULL_BLOCKS_PREFERENCE = 3 /\
  params feeHistoryRequest =
    Some [VStr "0x1"; VStr "latest"; VArr [VNum 50]].
Proof.
  intros s s1.
  apply (C3_fee_market_projection (P := londonNode) (RT := v8)
           s s1 londonFeeHistory 2%nat (VStr "0x5a") "0x64" "0x5" 100 5);
    try reflexivity.
  apply (support_found (P := londonNode) (RT := v8)
           s londonBlock 1%nat (VStr "0x5a")); reflexivity.
Defined.


(** Both fee fields are supplied, with the fee below the priority fee. *)
Lemma C7_witness :
  let s := initial (P := londonNode) fresh 0%nat in
  let tx := [("from", VStr "0xf00"); ("maxFeePerGas", VStr "0x1");
             ("maxPriorityFeePerGas", VStr "0x5")] in
  request (RT := v8) (sendTransaction tx) s =
    wrappedRequest Forwarded (sendTransaction tx) s /\
  this (snd (request (RT := v8) (sendTransaction tx) s)) = this s /\
  calls (snd (request (RT := v8) (sendTransaction tx) s)) =
    calls s ++
    [{| call_origin := Forwarded;
        call_request := sendTransaction tx;
        call_response :=
          fst (provider_request (sendTransaction tx) (world s)) |}].
Proof.
  intros s tx.
  apply (C7_priced_transaction_forwarded_unchanged (P := londonNode) (RT := v8)
           (sendTransaction tx) tx [] s eq_refl eq_refl).
  right. split; intros H; discriminate H.
Defined.


(** A node without eth_feeHistory makes the projection return nothing; a
    node that cannot be reached makes it throw. *)
Lemma C10_witness :
  (let s := initial (P := noHistoryNode) fresh 0%nat in
   let s1 := supportFound s londonBlock 1%nat in
   let e := Err "Method eth_feeHistory not found" in
   _suggestEip1559FeePriceValues (RT := v8) s
     = (Returned None, feeHistoryFailed s1 e 2%nat) /\
   _nodeHasFeeHistory (this (feeHistoryFailed s1 e 2%nat)) = Some false) /\
  (let s := initial (P := offlineNode) fresh 0%nat in
   let e := Err "connect ECONNREFUSED" in
   let s1 := answered s Auxiliary latestBlockRequest (Threw e) 1%nat in
   _suggestEip1559FeePriceValues (RT := v8) s = (Threw e, s1) /\
   request (RT := v8) (sendTransaction [("from", VStr "0xf00")]) s
     = (Threw e, s1)).
Proof.
  pose proof (C10_only_fee_history_failure_is_caught
                (P := noHistoryNode) (RT := v8)) as [Hcaught _].
  pose proof (C10_only_fee_history_failure_is_caught
                (P := offlineNode) (RT := v8)) as [_ [_ [_ Hthrown]]].
  split.
  - intros s s1 e. apply (Hcaught s s1 e 2%nat); try reflexivity.
    apply (support_found (P := noHistoryNode) (RT := v8)
             s londonBlock 1%nat (VStr "0x5a")); reflexivity.
  - intros s e s1.
    destruct (Hthrown s e 1%nat eq_refl eq_refl) as [Hsuggest [_ Hrequest]].
    split; [exact Hsuggest|].
    apply (Hrequest (sendTransaction [("from", VStr "0xf00")])
             [("from", VStr "0xf00")] []); reflexivity.
Defined.
End AutomaticGasPriceExamples.

(** ** The scenarios of the specification *)

Module Scenarios.

(** Scenario A: multiplier 1.5, estimate 100000, observed block gas limit
    30000000: the cached limit is 28500000 and the gas is 150000. *)
Example scenario_A :
  let s := initial (P := londonNode) (multiplied (3 # 2)) 0%nat in
  let r := MultipliedGasEstimationProvider._getMultipliedGasEstimation
             (RT := v8) [VObj []] s in
  fst r = Returned (VStr (numberToRpcQuantity 150000)) /\
  MultipliedGasEstimationProvider._blockGasLimit (this (snd r))
    = Some 28500000.
Proof. split; reflexivity. Qed.

(** Scenario B: the estimator raises an execution error: the gas is the
    cached block gas limit. *)
Example scenario_B :
  let s := initial (P := revertingNode) (multiplied (3 # 2)) 0%nat in
  fst (MultipliedGasEstimationProvider._getMultipliedGasEstimation
         (RT := v8) [VObj []] s)
    = Returned (VStr (numberToRpcQuantity 28500000)).
Proof. reflexivity. Qed.

(** Scenario C: no pricing fields and no base fee: the legacy gas price is
    the answer of eth_gasPrice. *)
Example scenario_C :
  let s := initial (P := revertingNode) fresh 0%nat in
  let tx := [("from", VStr "0xf00")] in
  AutomaticGasPriceProvider.request (RT := v8) (sendTransaction tx)  s =
    wrappedRequest Forwarded
      (sendTransaction (tx ++ [("gasPrice", VStr "0x7")]))
      (snd (AutomaticGasPriceProvider._getGasPrice (RT := v8)
              (snd (AutomaticGasPriceProvider._suggestEip1559FeePriceValues
                      (RT := v8) s)))).
Proof. reflexivity. Qed.

(** Scenario D: no pricing fields, next base fee 100 and reward 5: the
    priority fee is 5 and the cap is 126. *)
Example scenario_D :
  let s := initial (P := londonNode) fresh 0%nat in
  let tx := [("from", VStr "0xf00")] in
  AutomaticGasPriceProvider.request (RT := v8) (sendTransaction tx)  s =
    wrappedRequest Forwarded
      (sendTransaction
         (tx ++ [("maxFeePerGas", VStr (numberToRpcQuantity 126));
                 ("maxPriorityFeePerGas", VStr (numberToRpcQuantity 5))]))
      (snd (AutomaticGasPriceProvider._suggestEip1559FeePriceValues
              (RT := v8) s)).
Proof. reflexivity. Qed.
End Scenarios.

(** * Further properties of the wrappers *)

(** ** Requests without a transaction *)

Section PassThrough.
Context {P : EIP1193Provider} {RT : Runtime}.

Lemma carriesTransaction_false args :
  carriesTransaction args = false ->
  String.eqb (method args) "eth_sendTransaction" = false \/
  isUndefined (firstParam (_getParams args)) = true.
Proof.
  unfold carriesTransaction. intros H.
  apply andb_false_iff in H as [H|H]; [now left|right].
  now apply negb_false_iff in H.
Qed.

(** X1.  A request that is not a send-transaction request, or whose first
    parameter is missing, is forwarded as it is by each of the four
    wrappers: the outcome, answer or error, is the wrapped provider's, the
    fields of the instance are kept and nothing else is sent. *)
Theorem X1_request_without_transaction_passes_through args :
  carriesTransaction args = false ->
  (forall s, FixedGasProvider.request args s
             = wrappedRequest Forwarded args s) /\
  (forall s, FixedGasPriceProvider.request args s
             = wrappedRequest Forwarded args s) /\
  (forall s, AutomaticGasProvider.request args s
             = wrappedRequest Forwarded args s) /\
  (forall s, AutomaticGasPriceProvider.request args s
             = wrappedRequest Forwarded args s).
Proof.
  intros H. apply carriesTransaction_false in H.
  repeat split; intros s;
    unfold FixedGasProvider.request, FixedGasPriceProvider.request,
      AutomaticGasProvider.request, AutomaticGasPriceProvider.request;
    destruct H as [H|H]; rewrite ?H; cbn [negb]; try reflexivity;
    destruct (String.eqb (method args) "eth_sendTransaction");
    cbn [negb]; cbv zeta; rewrite ?H; reflexivity.
Qed.

(** X2.  A send-transaction request whose first parameter is [null] makes
    each of the four wrappers throw the type error of reading a property of
    [null]; the wrapped provider receives nothing. *)
Theorem X2_null_transaction_throws args rest :
  method args = "eth_sendTransaction" ->
  params args = Some (VNull :: rest) ->
  (forall s, FixedGasProvider.request args s
             = (Threw (Err (typeErrorMessage VNull "gas")), s)) /\
  (forall s, FixedGasPriceProvider.request args s
             = (Threw (Err (typeErrorMessage VNull "gasPrice")), s)) /\
  (forall s, AutomaticGasProvider.request args s
             = (Threw (Err (typeErrorMessage VNull "gas")), s)) /\
  (forall s, AutomaticGasPriceProvider.request args s
             = (Threw (Err (typeErrorMessage VNull "gasPrice")), s)).
Proof.
  intros Hm Hp.
  repeat split; intros s;
    unfold FixedGasProvider.request, FixedGasPriceProvider.request,
      AutomaticGasProvider.request, AutomaticGasPriceProvider.request,
      _getParams;
    rewrite Hm, Hp; reflexivity.
Qed.
End PassThrough.

(** ** FixedGasProvider *)

Section FixedGasFacts.
Context {P : EIP1193Provider} {RT : Runtime}.
Import FixedGasProvider.

(** X3.  On a send-transaction request whose first parameter is a
    transaction object, FixedGasProvider sets [gas] to the quantity of the
    configured limit when the transaction has none, keeping every other
    property and every later parameter, and forwards the request as it is
    when the transaction has a [gas]. *)
Theorem X3_fixed_gas_only_when_absent args fields rest (s : state t) :
  method args = "eth_sendTransaction" ->
  params args = Some (VObj fields :: rest) ->
  let gas := VStr (numberToRpcQuantity (_gasLimit (this s))) in
  (isUndefined (lookup "gas" fields) = true ->
   request args s =
     wrappedRequest Forwarded
       (withTx args (VObj (assign "gas" gas fields))) s /\
   lookup "gas" (assign "gas" gas fields) = gas /\
   (forall k, k <> "gas" ->
      lookup k (assign "gas" gas fields) = lookup k fields) /\
   params (withTx args (VObj (assign "gas" gas fields)))
     = Some (VObj (assign "gas" gas fields) :: rest)) /\
  (isUndefined (lookup "gas" fields) = false ->
   request args s = wrappedRequest Forwarded args s).
Proof.
  intros Hm Hp gas. subst gas.
  unfold request, _getParams. rewrite Hm, Hp.
  replace ("eth_sendTransaction" =? "eth_sendTransaction")%string with true
    by reflexivity.
  cbn [firstParam nth isUndefined]. run. cbn [getProp setProp].
  split; intros H; rewrite H; [|reflexivity].
  split; [reflexivity|]. split; [apply lookup_assign_same|].
  split; [intros k Hk; now apply lookup_assign_other|].
  unfold withTx, _getParams. now rewrite Hp.
Qed.
End FixedGasFacts.

Module FixedGasExamples.
Import FixedGasProvider.

(** A transaction without [gas] gets the configured limit 21000; one with
    [gas] is forwarded as it is. *)
Lemma X3_witness :
  let s := initial (P := londonNode) {| _gasLimit := 21000 |} 0%nat in
  let plain := [("from", VStr "0xf00")] in
  let limited := [("from", VStr "0xf00"); ("gas", VStr "0x1")] in
  (request (RT := v8) (sendTransaction plain) s =
     wrappedRequest Forwarded
       (withTx (sendTransaction plain)
          (VObj (assign "gas" (VStr "0x5208") plain))) s /\
   lookup "gas" (assign "gas" (VStr "0x5208") plain) = VStr "0x5208" /\
   (forall k, k <> "gas" ->
      lookup k (assign "gas" (VStr "0x5208") plain) = lookup k plain) /\
   params (withTx (sendTransaction plain)
             (VObj (assign "gas" (VStr "0x5208") plain)))
     = Some [VObj (assign "gas" (VStr "0x5208") plain)]) /\
  request (RT := v8) (sendTransaction limited) s =
    wrappedRequest Forwarded (sendTransaction limited) s.
Proof.
  intros s plain limited. split.
  - apply (proj1 (X3_fixed_gas_only_when_absent (P := londonNode) (RT := v8)
                    (sendTransaction plain) plain [] s eq_refl eq_refl)).
    reflexivity.
  - apply (proj2 (X3_fixed_gas_only_when_absent (P := londonNode) (RT := v8)
                    (sendTransaction limited) limited [] s eq_refl eq_refl)).
    reflexivity.
Defined.
End FixedGasExamples.

Module PassThroughExamples.

(** A chain-id request, and a send-transaction request without
    parameters. *)
Lemma X1_witness :
  let chainId := {| method := "eth_chainId"; params := None |} in
  let empty := {| method := "eth_sendTransaction"; params := Some [] |} in
  let s1 := initial (P := londonNode) fresh 0%nat in
  let s2 := initial (P := londonNode) (multiplied (3 # 2)) 0%nat in
  AutomaticGasPriceProvider.request (RT := v8) chainId s1
    = wrappedRequest Forwarded chainId s1 /\
  AutomaticGasProvider.request (RT := v8) empty s2
    = wrappedRequest Forwarded empty s2.
Proof.
  intros chainId empty s1 s2. split.
  - apply (X1_request_without_transaction_passes_through
             (P := londonNode) (RT := v8) chainId eq_refl).
  - apply (X1_request_without_transaction_passes_through
             (P := londonNode) (RT := v8) empty eq_refl).
Defined.

(** A send-transaction request with [null] for the transaction. *)
Lemma X2_witness :
  let args := {| method := "eth_sendTransaction"; params := Some [VNull] |} in
  let s := initial (P := londonNode)
             {| FixedGasPriceProvider._gasPrice := 7 |} 0%nat in
  FixedGasPriceProvider.request (RT := v8) args s
    = (Threw (Err (typeErrorMessage (Runtime := v8) VNull "gasPrice")), s).
Proof.
  intros args s.
  apply (X2_null_transaction_throws (P := londonNode) (RT := v8)
           args [] eq_refl eq_refl).
Defined.
End PassThroughExamples.

(** ** AutomaticGasProvider *)

Section AutomaticGasFacts.
Context {P : EIP1193Provider} {RT : Runtime}.
Import MultipliedGasEstimationProvider.

(** [request] on a send-transaction request that holds a transaction
    object. *)
Lemma automatic_gas_unfold args fields rest (s : state t) :
  method args = "eth_sendTransaction" ->
  params args = Some (VObj fields :: rest) ->
  AutomaticGasProvider.request args s =
    if isUndefined (lookup "gas" fields) then
      match _getMultipliedGasEstimation (VObj fields :: rest) s with
      | (Returned gas, s1) =>
          wrappedRequest Forwarded
            (withTx args (VObj (assign "gas" gas fields))) s1
      | (Threw e, s1) => (Threw e, s1)
      end
    else wrappedRequest Forwarded args s.
Proof.
  intros Hm Hp. unfold AutomaticGasProvider.request, _getParams.
  rewrite Hm, Hp.
  replace ("eth_sendTransaction" =? "eth_sendTransaction")%string with true
    by reflexivity.
  cbn [firstParam nth isUndefined]. run. cbn [getProp setProp].
  destruct (isUndefined (lookup "gas" fields)); [|reflexivity].
  destruct (_getMultipliedGasEstimation (VObj fields :: rest) s)
    as [[gas|e] s1]; reflexivity.
Qed.

Lemma multiplied_estimation_threw params (s : state t) e w :
  provider_request (estimateGasRequest params) (world s) = (Threw e, w) ->
  _getMultipliedGasEstimation params s =
    if isExecutionError e then
      (blockGasLimit <- _getBlockGasLimit ;;
       ret (VStr (numberToRpcQuantity blockGasLimit)))
        (answered s Auxiliary (estimateGasRequest params) (Threw e) w)
    else (Threw e, answered s Auxiliary (estimateGasRequest params) (Threw e) w).
Proof.
  intros Hw. unfold _getMultipliedGasEstimation. run. rewrite Hw. run.
  destruct e as [message|v]; cbn [isExecutionError]; [|reflexivity].
  destruct (includes (toLowerCase message) "execution error"); reflexivity.
Qed.

Lemma forwarded_snoc (cs : list call) (c : call) :
  forwardedCalls (cs ++ [c]) =
    if isForwarded c then forwardedCalls cs ++ [c] else forwardedCalls cs.
Proof.
  unfold forwardedCalls. rewrite filter_app. cbn.
  destruct (isForwarded c); [reflexivity|apply app_nil_r].
Qed.

(** X4.  AutomaticGasProvider leaves a transaction that has a [gas] alone:
    the request is forwarded as it is, no estimation is asked for and the
    fields of the instance are kept. *)
Theorem X4_automatic_gas_keeps_explicit_gas args fields rest (s : state t) :
  method args = "eth_sendTransaction" ->
  params args = Some (VObj fields :: rest) ->
  lookup "gas" fields <> VUndefined ->
  AutomaticGasProvider.request args s = wrappedRequest Forwarded args s /\
  this (snd (AutomaticGasProvider.request args s)) = this s /\
  sentSince s (snd (AutomaticGasProvider.request args s)) =
    [{| call_origin := Forwarded;
        call_request := args;
        call_response := fst (provider_request args (world s)) |}].
Proof.
  intros Hm Hp Hgas. apply isUndefined_false in Hgas.
  rewrite (automatic_gas_unfold args fields rest s Hm Hp), Hgas.
  split; [reflexivity|]. unfold wrappedRequest, sentSince.
  destruct (provider_request args (world s)). cbn [snd this calls fst].
  split; [reflexivity|].
  rewrite skipn_app, skipn_all, Nat.sub_diag. reflexivity.
Qed.

(** X5.  When the transaction has no [gas] and the remote estimation throws
    anything but an execution error, AutomaticGasProvider throws the same
    error and the transaction does not reach the wrapped provider: the
    estimation is the only request sent. *)
Theorem X5_failed_estimation_is_not_forwarded
  args fields rest (s : state t) e w :
  method args = "eth_sendTransaction" ->
  params args = Some (VObj fields :: rest) ->
  isUndefined (lookup "gas" fields) = true ->
  provider_request (estimateGasRequest (VObj fields :: rest)) (world s)
    = (Threw e, w) ->
  isExecutionError e = false ->
  let s1 := answered s Auxiliary (estimateGasRequest (VObj fields :: rest))
              (Threw e) w in
  AutomaticGasProvider.request args s = (Threw e, s1) /\
  forwardedCalls (calls s1) = forwardedCalls (calls s) /\
  lookup "gas" fields = VUndefined.
Proof.
  intros Hm Hp Hgas Hw He s1. subst s1.
  rewrite (automatic_gas_unfold args fields rest s Hm Hp), Hgas.
  rewrite (multiplied_estimation_threw _ s e w Hw), He.
  split; [reflexivity|]. split.
  - unfold answered. cbn [calls]. now rewrite forwarded_snoc.
  - destruct (lookup "gas" fields); try discriminate. reflexivity.
Qed.



Lemma getBlockGasLimit_uncached (s s2 : state t) L :
  _blockGasLimit (this s) = None ->
  _getBlockGasLimit s = (Returned L, s2) ->
  exists r,
    latestBlockLookups (calls s2) =
      latestBlockLookups (calls s) ++
      [{| call_origin := Auxiliary;
          call_request := latestBlockRequest;
          call_response := r |}].
Proof.
  intros Hcache. unfold _getBlockGasLimit. run. rewrite Hcache.
  destruct (provider_request latestBlockRequest (world s)) as [[b|e] w2];
    run; [|discriminate].
  destruct (getProp b "gasLimit") as [gl|e]; run; [|discriminate].
  destruct (rpcQuantityToNumber gl) as [g|e]; run; [|discriminate].
  intros [= <- <-]. cbn [calls]. rewrite lookups_snoc. cbn. now eexists.
Qed.

(** X8.  The catch of the estimation also covers the block-gas-limit lookup:
    when the estimation succeeds, the multiplier is not 1, and the first
    lookup throws an execution error, the lookup is sent a second time, and
    the limit it yields is returned in place of the multiplied estimate. *)
Theorem X8_lookup_error_is_caught_too
  params (s s2 : state t) q n w message w1 L :
  ~ (_gasMultiplier (this s) == 1)%Q ->
  _blockGasLimit (this s) = None ->
  provider_request (estimateGasRequest params) (world s)
    = (Returned (VStr q), w) ->
  decodeQuantity q = Some n ->
  provider_request latestBlockRequest w = (Threw (Err message), w1) ->
  includes (toLowerCase message) "execution error" = true ->
  let s1 := answered
              (answered s Auxiliary (estimateGasRequest params)
                 (Returned (VStr q)) w)
              Auxiliary latestBlockRequest (Threw (Err message)) w1 in
  _getBlockGasLimit s1 = (Returned L, s2) ->
  _getMultipliedGasEstimation params s
    = (Returned (VStr (numberToRpcQuantity L)), s2) /\
  exists later,
    latestBlockLookups (calls s2) =
      latestBlockLookups (calls s) ++
      {| call_origin := Auxiliary;
         call_request := latestBlockRequest;
         call_response := Threw (Err message) |} :: later /\
    later <> [].
Proof.
  intros Hmul Hcache Hw Hq Hw1 Hmsg s1 HL. subst s1.
  assert (Hne : Qeq_bool (_gasMultiplier (this s)) 1 = false).
  { destruct (Qeq_bool (_gasMultiplier (this s)) 1) eqn:E; [|reflexivity].
    apply Qeq_bool_iff in E. contradiction. }
  split.
  - unfold _getMultipliedGasEstimation. run. rewrite Hw. run. rewrite Hne.
    unfold rpcQuantityToNumber at 1, rpcQuantityToBN at 1. rewrite Hq.
    unfold _getBlockGasLimit at 1. run. rewrite Hcache. run.
    rewrite Hw1. run. rewrite Hmsg. now rewrite HL.
  - match type of HL with
    | _getBlockGasLimit ?st = _ =>
        destruct (getBlockGasLimit_uncached st s2 L Hcache HL) as [r Hr]
    end.
    rewrite Hr. unfold answered. cbn [calls]. rewrite !lookups_snoc. cbn.
    eexists. split; [rewrite <- app_assoc; reflexivity|discriminate].
Qed.
End AutomaticGasFacts.

Module AutomaticGasExamples.
Import MultipliedGasEstimationProvider.

(** A transaction with a [gas] of 1. *)
Lemma X4_witness :
  let s := initial (P := londonNode) (multiplied (3 # 2)) 0%nat in
  let args := sendTransaction [("from", VStr "0xf00"); ("gas", VStr "0x1")] in
  AutomaticGasProvider.request (RT := v8) args s
    = wrappedRequest Forwarded args s /\
  this (snd (AutomaticGasProvider.request (RT := v8) args s)) = this s /\
  sentSince s (snd (AutomaticGasProvider.request (RT := v8) args s)) =
    [{| call_origin := Forwarded;
        call_request := args;
        call_response := fst (provider_request args (world s)) |}].
Proof.
  intros s args.
  apply (X4_automatic_gas_keeps_explicit_gas (P := londonNode) (RT := v8)
           args [("from", VStr "0xf00"); ("gas", VStr "0x1")] [] s
           eq_refl eq_refl).
  intros H. discriminate H.
Defined.

(** The node refuses the connection at the estimation. *)
Lemma X5_witness :
  let s := initial (P := unreachableNode) (multiplied (3 # 2)) 0%nat in
  let tx := [("from", VStr "0xf00")] in
  let e := Err "connect ECONNREFUSED" in
  let s1 := answered s Auxiliary (estimateGasRequest [VObj tx]) (Threw e)
              1%nat in
  AutomaticGasProvider.request (RT := v8) (sendTransaction tx) s
    = (Threw e, s1) /\
  forwardedCalls (calls s1) = forwardedCalls (calls s) /\
  lookup "gas" tx = VUndefined.
Proof.
  intros s tx e s1.
  apply (X5_failed_estimation_is_not_forwarded (P := unreachableNode)
           (RT := v8) (sendTransaction tx) tx [] s e 1%nat);
    reflexivity.
Defined.



(** The first lookup throws "execution error: timeout", the second one is
    answered with a gas limit of 40: the estimation returns 38. *)
Lemma X8_witness :
  let node := failingOnceNode "execution error: timeout" (VStr "0x13") block40 in
  let s := initial (P := node) (multiplied 2) false in
  let s1 := answered
              (answered s Auxiliary (estimateGasRequest [VObj []])
                 (Returned (VStr "0x13")) false)
              Auxiliary latestBlockRequest
              (Threw (Err "execution error: timeout")) true in
  let s2 := snd (_getBlockGasLimit (P := node) (RT := v8) s1) in
  _getMultipliedGasEstimation (P := node) (RT := v8) [VObj []] s
    = (Returned (VStr (numberToRpcQuantity 38)), s2) /\
  exists later,
    latestBlockLookups (calls s2) =
      latestBlockLookups (calls s) ++
      {| call_origin := Auxiliary;
         call_request := latestBlockRequest;
         call_response := Threw (Err "execution error: timeout") |} :: later /\
    later <> [].
Proof.
  intros node s s1 s2.
  apply (X8_lookup_error_is_caught_too (P := node) (RT := v8)
           [VObj []] s s2 "0x13" 19 false "execution error: timeout" true 38);
    try reflexivity.
  intros H. discriminate H.
Defined.
End AutomaticGasExamples.

(** ** AutomaticGasPriceProvider: detection and fallbacks *)

Section AutomaticGasPriceDetection.
Context {P : EIP1193Provider} {RT : Runtime}.
Import AutomaticGasPriceProvider.

Lemma settled_request {F} (Q : F -> Prop) select sent o req :
  (forall r, select {| call_origin := o;
                       call_request := req;
                       call_response := r |} = false) ->
  preserves (settled Q select sent) (wrappedRequest o req).
Proof.
  intros Hsel s [HQ Hsent]. unfold wrappedRequest.
  destruct (provider_request req (world s)) as [r w]. cbn [snd].
  split; [exact HQ|]. cbn [calls]. rewrite filter_app. cbn.
  now rewrite Hsel, app_nil_r.
Qed.

Lemma settled_getGasPrice (Q : t -> Prop) select sent :
  (forall r, select {| call_origin := Auxiliary;
                       call_request := gasPriceRequest;
                       call_response := r |} = false) ->
  preserves (settled Q select sent) _getGasPrice.
Proof.
  intros Hsel. unfold _getGasPrice.
  preserve_with ltac:(apply settled_request; exact Hsel).
Qed.

(** [request] keeps what the projection keeps, as long as the selected
    requests are neither forwarded ones nor gas-price requests. *)
Lemma settled_by_request (Q : t -> Prop) select sent args :
  (forall c, call_origin c = Forwarded -> select c = false) ->
  (forall r, select {| call_origin := Auxiliary;
                       call_request := gasPriceRequest;
                       call_response := r |} = false) ->
  preserves (settled Q select sent) _suggestEip1559FeePriceValues ->
  preserves (settled Q select sent) (request args).
Proof.
  intros Hfwd Hprice Hsuggest. unfold request.
  preserve_with ltac:(first [ exact Hsuggest
                            | apply settled_getGasPrice; exact Hprice
                            | apply settled_request; intro; now apply Hfwd ]).
Qed.

Lemma settled_by_serveAll {F} (I : state F -> Prop) request reqs :
  (forall args, preserves I (request args)) ->
  preserves I (serveAll request reqs).
Proof.
  intros Hreq. induction reqs as [|args reqs IH]; cbn [serveAll].
  - apply preserves_ret.
  - preserve_with ltac:(first [apply Hreq|exact IH]).
Qed.

Lemma suggest_keeps_support (b : bool) sent :
  preserves
    (settled (fun f => _nodeSupportsEIP1559 f = Some b)
       isLatestBlockLookup sent)
    _suggestEip1559FeePriceValues.
Proof.
  intros s [Hsup Hsent]. unfold settled, _suggestEip1559FeePriceValues. run.
  rewrite Hsup. run.
  destruct (isFalse (_nodeHasFeeHistory (this s)) ||
            isFalse (_nodeSupportsEIP1559 (this s))); [now split|].
  destruct (provider_request feeHistoryRequest (world s)) as [[response|e] w];
    run.
  2: { cbn. rewrite filter_app. cbn. now rewrite app_nil_r. }
  repeat match goal with
         | |- context [match ?x with Returned _ => _ | Threw _ => _ end] =>
             destruct x; run
         end;
    cbn; rewrite filter_app; cbn; now rewrite app_nil_r.
Qed.

Lemma suggest_keeps_unsupported sent :
  preserves
    (settled (fun f => _nodeHasFeeHistory f = Some false)
       isFeeHistoryRequest sent)
    _suggestEip1559FeePriceValues.
Proof.
  intros s [Hhist Hsent]. unfold settled, _suggestEip1559FeePriceValues. run.
  destruct (_nodeSupportsEIP1559 (this s)) as [b|]; run.
  - rewrite Hhist. cbn. now split.
  - destruct (provider_request latestBlockRequest (world s))
      as [[block|e] w]; run.
    2: { cbn. rewrite filter_app. cbn. now rewrite app_nil_r. }
    destruct (getProp block "baseFeePerGas") as [baseFee|e]; run.
    2: { cbn. rewrite filter_app. cbn. now rewrite app_nil_r. }
    rewrite Hhist. cbn. rewrite filter_app. cbn. now rewrite app_nil_r.
Qed.

(** X9.  Once the support for EIP-1559 is known, supported or not, no
    sequence of requests to the instance changes the flag or sends another
    latest-block lookup. *)
Theorem X9_support_is_detected_once (s : state t) (b : bool) reqs :
  _nodeSupportsEIP1559 (this s) = Some b ->
  let s' := snd (serveAll request reqs s) in
  _nodeSupportsEIP1559 (this s') = Some b /\
  latestBlockLookups (calls s') = latestBlockLookups (calls s).
Proof.
  intros Hsup.
  apply (settled_by_serveAll
           (settled (fun f => _nodeSupportsEIP1559 f = Some b)
              isLatestBlockLookup (latestBlockLookups (calls s)))
           request reqs).
  - intros args. apply settled_by_request.
    + intros c Hc. unfold isLatestBlockLookup. now rewrite Hc.
    + reflexivity.
    + apply suggest_keeps_support.
  - now split.
Qed.

(** X10.  Once the fee history is marked as missing, no sequence of requests
    to the instance sends another fee-history request, and the mark
    stays. *)
Theorem X10_fee_history_is_not_asked_again (s : state t) reqs :
  _nodeHasFeeHistory (this s) = Some false ->
  let s' := snd (serveAll request reqs s) in
  _nodeHasFeeHistory (this s') = Some false /\
  filter isFeeHistoryRequest (calls s') = filter isFeeHistoryRequest (calls s).
Proof.
  intros Hhist.
  apply (settled_by_serveAll
           (settled (fun f => _nodeHasFeeHistory f = Some false)
              isFeeHistoryRequest (filter isFeeHistoryRequest (calls s)))
           request reqs).
  - intros args. apply settled_by_request.
    + intros c Hc. unfold isFeeHistoryRequest. now rewrite Hc.
    + reflexivity.
    + apply suggest_keeps_unsupported.
  - now split.
Qed.
End AutomaticGasPriceDetection.

(** Case analysis on the innermost scrutinee of the goal. *)
Ltac break_inner x :=
  lazymatch x with
  | context [match ?y with _ => _ end] => break_inner y
  | _ => destruct x eqn:?
  end.

Ltac break_match :=
  match goal with
  | |- context [match ?x with _ => _ end] => break_inner x
  end.

Section AutomaticGasPriceFallbacks.
Context {P : EIP1193Provider} {RT : Runtime}.
Import AutomaticGasPriceProvider.

Lemma rpcQuantityToBN_nonneg (v : value) (n : Z) :
  rpcQuantityToBN v = Returned n -> 0 <= n.
Proof.
  unfold rpcQuantityToBN. destruct v; try discriminate.
  destruct (decodeQuantity s) as [m|] eqn:E; [|discriminate].
  intros [= <-]. now apply decode_nonneg with s.
Qed.

Lemma getGasPrice_nonneg (s s' : state t) gasPrice :
  _getGasPrice s = (Returned gasPrice, s') -> 0 <= gasPrice.
Proof.
  unfold _getGasPrice. run.
  destruct (provider_request gasPriceRequest (world s)) as [[r|e] w];
    run; [|discriminate].
  destruct (rpcQuantityToBN r) as [n|e] eqn:E; [|discriminate].
  intros [= <- _]. now apply rpcQuantityToBN_nonneg with r.
Qed.

Lemma suggest_without_base_fee (s : state t) block w :
  _nodeSupportsEIP1559 (this s) = None ->
  provider_request latestBlockRequest (world s) = (Returned block, w) ->
  getProp block "baseFeePerGas" = Returned VUndefined ->
  _suggestEip1559FeePriceValues s =
    (Returned None,
     {| this := {| _nodeHasFeeHistory := _nodeHasFeeHistory (this s);
                   _nodeSupportsEIP1559 := Some false |};
        world := w;
        calls := calls (answered s Auxiliary latestBlockRequest
                          (Returned block) w) |}).
Proof.
  intros Hsup Hw Hbase. unfold _suggestEip1559FeePriceValues. run.
  rewrite Hsup, Hw. run. rewrite Hbase. run.
  cbn [isUndefined negb _nodeSupportsEIP1559 isFalse].
  now rewrite orb_true_r.
Qed.


(** X12.  A fee-history answer whose next base fee is not a quantity (the
    array is too short, or the entry is malformed) is handled like a failed
    request: the projection returns no values and marks the fee history as
    missing. *)
Theorem X12_malformed_fee_history_is_caught
  (s s1 : state t) response w baseFees nextBaseFee e :
  supportDetected s s1 ->
  isFalse (_nodeHasFeeHistory (this s)) = false ->
  provider_request feeHistoryRequest (world s1) = (Returned response, w) ->
  getProp response "baseFeePerGas" = Returned baseFees ->
  index baseFees 1 = Returned nextBaseFee ->
  rpcQuantityToBN nextBaseFee = Threw e ->
  exists s2,
    _suggestEip1559FeePriceValues s = (Returned None, s2) /\
    _nodeHasFeeHistory (this s2) = Some false /\
    calls s2 = calls (answered s1 Auxiliary feeHistoryRequest
                        (Returned response) w).
Proof.
  intros Hdet Hhist Hw Hbase Hnext Hbad.
  destruct (suggest_detected s s1 Hdet Hhist) as (_ & _ & ->).
  rewrite Hw. run. rewrite Hbase, Hnext, Hbad.
  eexists. split; [reflexivity|]. split; reflexivity.
Qed.

Lemma suggest_nonneg (s s1 : state t) values :
  _suggestEip1559FeePriceValues s = (Returned (Some values), s1) ->
  0 <= maxFeePerGas values /\ 0 <= maxPriorityFeePerGas values.
Proof.
  unfold _suggestEip1559FeePriceValues. run.
  repeat (break_match; run; try discriminate).
  all: intros [= <- _]; cbn [maxFeePerGas maxPriorityFeePerGas].
  all: repeat match goal with
         | H : rpcQuantityToBN _ = Returned _ |- _ =>
             apply rpcQuantityToBN_nonneg in H
         end.
  all: split; [|assumption].
  all: apply Z.quot_pos; [|reflexivity].
  all: apply Z.mul_nonneg_nonneg; [assumption|now vm_compute].
Qed.
End AutomaticGasPriceFallbacks.

Section AutomaticGasPriceOutput.
Context {P : EIP1193Provider} {RT : Runtime}.
Import AutomaticGasPriceProvider.

Lemma settled_setThis {F} (Q : F -> Prop) select sent (f : F) :
  Q f -> preserves (settled Q select sent) (setThis f).
Proof. intros Hf s [_ Hsent]. now split. Qed.

Lemma suggest_forwards_nothing sent :
  preserves (nothingForwarded sent) _suggestEip1559FeePriceValues.
Proof.
  unfold nothingForwarded, _suggestEip1559FeePriceValues.
  preserve_with ltac:(first [ apply settled_setThis; exact Logic.I
                            | apply settled_request; reflexivity ]).
Qed.

Lemma getGasPrice_forwards_nothing sent :
  preserves (nothingForwarded sent) _getGasPrice.
Proof. apply settled_getGasPrice. reflexivity. Qed.

Lemma forwards_nothing_eq {A} (m : M t A) (s : state t) :
  preserves (nothingForwarded (forwardedCalls (calls s))) m ->
  forwardedCalls (calls (snd (m s))) = forwardedCalls (calls s).
Proof. intros Hm. apply (Hm s). now split. Qed.

Lemma defaults_forward_nothing suggested (s1 s2 : state t) defaults :
  defaultsFrom suggested s1 defaults s2 ->
  forwardedCalls (calls s2) = forwardedCalls (calls s1).
Proof.
  intros [values s|gasPrice s s' Hprice]; [reflexivity|].
  pose proof (forwards_nothing_eq _getGasPrice s
                (getGasPrice_forwards_nothing _)) as H.
  now rewrite Hprice in H.
Qed.

Lemma resolved_nonneg (v : value) (default n : Z) :
  0 <= default -> resolved v default = Returned n -> 0 <= n.
Proof.
  intros Hd. unfold resolved. destruct (isUndefined v).
  - now intros [= <-].
  - apply rpcQuantityToBN_nonneg.
Qed.

Lemma defaults_nonneg suggested (s s1 s2 : state t) defaults :
  _suggestEip1559FeePriceValues s = (Returned suggested, s1) ->
  defaultsFrom suggested s1 defaults s2 ->
  0 <= maxFeePerGas defaults /\ 0 <= maxPriorityFeePerGas defaults.
Proof.
  intros Hsug Hdef. destruct Hdef as [values s1|gasPrice s1 s2 Hprice].
  - apply (suggest_nonneg s s1 values Hsug).
  - apply getGasPrice_nonneg in Hprice. now split.
Qed.



(** X15.  Whatever AutomaticGasPriceProvider does with a send-transaction
    request that holds a transaction object, it never hands an unpriced
    transaction to the wrapped provider: either it throws and nothing is
    forwarded, or the one request it forwards holds a transaction with a
    [gasPrice] or with both fee-market fields, and the later parameters as
    they were. *)
Theorem X15_forwarded_transaction_is_priced
  args fields rest (s : state t) :
  method args = "eth_sendTransaction" ->
  params args = Some (VObj fields :: rest) ->
  (exists e s0,
     request args s = (Threw e, s0) /\
     forwardedCalls (calls s0) = forwardedCalls (calls s)) \/
  (exists args' tx' s0,
     request args s = wrappedRequest Forwarded args' s0 /\
     forwardedCalls (calls s0) = forwardedCalls (calls s) /\
     method args' = "eth_sendTransaction" /\
     params args' = Some (VObj tx' :: rest) /\
     priced tx' = true).
Proof.
  intros Hm Hp.
  pose (ok := fun r : outcome value * state t =>
    (exists e s0,
       r = (Threw e, s0) /\
       forwardedCalls (calls s0) = forwardedCalls (calls s)) \/
    (exists args' tx' s0,
       r = wrappedRequest Forwarded args' s0 /\
       forwardedCalls (calls s0) = forwardedCalls (calls s) /\
       method args' = "eth_sendTransaction" /\
       params args' = Some (VObj tx' :: rest) /\
       priced tx' = true)).
  change (ok (request args s)).
  rewrite (request_unfold args fields rest s Hm Hp).
  fold (priced fields). destruct (priced fields) eqn:Hpriced.
  { right. exists args, fields, s. repeat split; assumption. }
  pose proof (forwards_nothing_eq _suggestEip1559FeePriceValues s
                (suggest_forwards_nothing _)) as Hsug.
  destruct (_suggestEip1559FeePriceValues s) as [[suggested|e] s1];
    cbn [snd] in Hsug; [|left; now exists e, s1].
  assert (Hwith : forall tx',
    method (withTx args (VObj tx')) = "eth_sendTransaction" /\
    params (withTx args (VObj tx')) = Some (VObj tx' :: rest)).
  { intros tx'. unfold withTx, _getParams. rewrite Hp. now split. }
  assert (Hforward : forall tx' (s2 : state t),
    forwardedCalls (calls s2) = forwardedCalls (calls s) ->
    priced tx' = true ->
    ok (wrappedRequest Forwarded (withTx args (VObj tx')) s2)).
  { intros tx' s2 Hs2 Htx. right. exists (withTx args (VObj tx')), tx', s2.
    split; [reflexivity|]. split; [exact Hs2|].
    split; [apply Hwith|]. split; [apply Hwith|exact Htx]. }
  assert (Hlegacy :
    ok ((gasPrice <- _getGasPrice ;;
         wrappedRequest Forwarded
           (withTx args
              (VObj (assign "gasPrice"
                       (VStr (numberToRpcQuantity gasPrice)) fields)))) s1)).
  { pose proof (forwards_nothing_eq _getGasPrice s1
                  (getGasPrice_forwards_nothing _)) as Hprice.
    run. destruct (_getGasPrice s1) as [[gasPrice|e] s2]; cbn [snd] in Hprice.
    - apply Hforward; [congruence|].
      unfold priced. now rewrite lookup_assign_same.
    - left. exists e, s2. split; [reflexivity|congruence]. }
  assert (Hmarket : forall defaults (s2 : state t),
    forwardedCalls (calls s2) = forwardedCalls (calls s) ->
    ok ((fee <- lift (resolved (lookup "maxFeePerGas" fields)
                        (maxFeePerGas defaults)) ;;
         priority <- lift (resolved (lookup "maxPriorityFeePerGas" fields)
                             (maxPriorityFeePerGas defaults)) ;;
         wrappedRequest Forwarded
           (withTx args
              (VObj (assign "maxPriorityFeePerGas"
                       (VStr (numberToRpcQuantity priority))
                       (assign "maxFeePerGas"
                          (VStr (numberToRpcQuantity
                                   (if fee <? priority
                                    then fee + priority else fee)))
                          fields))))) s2)).
  { intros defaults s2 Hs2. run.
    destruct (resolved (lookup "maxFeePerGas" fields) (maxFeePerGas defaults))
      as [fee|e]; [|left; now exists e, s2].
    destruct (resolved (lookup "maxPriorityFeePerGas" fields)
                (maxPriorityFeePerGas defaults))
      as [priority|e]; [|left; now exists e, s2].
    apply Hforward; [exact Hs2|].
    unfold priced. rewrite lookup_assign_same.
    rewrite (lookup_assign_other "maxFeePerGas") by discriminate.
    rewrite lookup_assign_same. cbn. apply orb_true_r. }
  destruct suggested as [values|].
  - assert (Hgoal := Hmarket values s1 Hsug). run.
    destruct (isUndefined (lookup "maxFeePerGas" fields) &&
              isUndefined (lookup "maxPriorityFeePerGas" fields));
      exact Hgoal.
  - destruct (isUndefined (lookup "maxFeePerGas" fields) &&
              isUndefined (lookup "maxPriorityFeePerGas" fields));
      [exact Hlegacy|].
    pose proof (forwards_nothing_eq _getGasPrice s1
                  (getGasPrice_forwards_nothing _)) as Hprice.
    run. destruct (_getGasPrice s1) as [[gasPrice|e] s2]; cbn [snd] in Hprice.
    + apply (Hmarket {| maxFeePerGas := gasPrice;
                        maxPriorityFeePerGas := gasPrice |} s2). congruence.
    + left. exists e, s2. split; [reflexivity|congruence].
Qed.

(** X16.  A caller's [maxFeePerGas] that is not a quantity is found out only
    after the node was asked for its suggestion: the request throws the
    codec's error and the transaction is not forwarded. *)
Theorem X16_malformed_fee_is_rejected
  args fields rest (s s1 s2 : state t) suggested defaults e :
  method args = "eth_sendTransaction" ->
  params args = Some (VObj fields :: rest) ->
  isUndefined (lookup "gasPrice" fields) = true ->
  isUndefined (lookup "maxFeePerGas" fields) = false ->
  rpcQuantityToBN (lookup "maxFeePerGas" fields) = Threw e ->
  isUndefined (lookup "maxPriorityFeePerGas" fields) = true ->
  _suggestEip1559FeePriceValues s = (Returned suggested, s1) ->
  defaultsFrom suggested s1 defaults s2 ->
  request args s = (Threw e, s2) /\
  forwardedCalls (calls s2) = forwardedCalls (calls s).
Proof.
  intros Hm Hp Hgp Hfee Hbad Hprio Hsug Hdef. split.
  - rewrite (request_unfold args fields rest s Hm Hp), Hgp, Hfee, Hprio, Hsug.
    cbn [negb andb orb]. unfold resolved. rewrite Hfee.
    destruct Hdef as [values s1|gasPrice s1 s2 Hprice]; run.
    + now rewrite Hbad.
    + rewrite Hprice. now rewrite Hbad.
  - rewrite (defaults_forward_nothing _ _ _ _ Hdef).
    pose proof (forwards_nothing_eq _suggestEip1559FeePriceValues s
                  (suggest_forwards_nothing _)) as H.
    now rewrite Hsug in H.
Qed.
End AutomaticGasPriceOutput.

(** ** Chains of wrappers *)

Section FixedChains.
Context {P : EIP1193Provider} {RT : Runtime}.

Lemma withTx_same args fields rest :
  params args = Some (VObj fields :: rest) ->
  withTx args (VObj fields) = args.
Proof.
  destruct args as [m ps]. cbn. intros ->. reflexivity.
Qed.

Lemma withTx_again args tx tx' :
  withTx (withTx args tx) tx' = withTx args tx'.
Proof. reflexivity. Qed.

Lemma fixed_gas_unfold {Q : EIP1193Provider} args fields rest
  (s : state (P := Q) FixedGasProvider.t) :
  method args = "eth_sendTransaction" ->
  params args = Some (VObj fields :: rest) ->
  FixedGasProvider.request args s =
    wrappedRequest Forwarded
      (withTx args
         (VObj (if isUndefined (lookup "gas" fields)
                then assign "gas"
                       (VStr (numberToRpcQuantity
                                (FixedGasProvider._gasLimit (this s)))) fields
                else fields))) s.
Proof.
  intros Hm Hp. unfold FixedGasProvider.request, _getParams. rewrite Hm, Hp.
  replace ("eth_sendTransaction" =? "eth_sendTransaction")%string with true
    by reflexivity.
  cbn [firstParam nth isUndefined]. run. cbn [getProp setProp].
  destruct (isUndefined (lookup "gas" fields)); [reflexivity|].
  now rewrite (withTx_same args fields rest Hp).
Qed.

Lemma fixed_gas_price_unfold {Q : EIP1193Provider} args fields rest
  (s : state (P := Q) FixedGasPriceProvider.t) :
  method args = "eth_sendTransaction" ->
  params args = Some (VObj fields :: rest) ->
  FixedGasPriceProvider.request args s =
    wrappedRequest Forwarded
      (withTx args
         (VObj (if isUndefined (lookup "gasPrice" fields) &&
                   isUndefined (lookup "maxFeePerGas" fields) &&
                   isUndefined (lookup "maxPriorityFeePerGas" fields)
                then assign "gasPrice"
                       (VStr (numberToRpcQuantity
                                (FixedGasPriceProvider._gasPrice (this s))))
                       fields
                else fields))) s.
Proof.
  intros Hm Hp. unfold FixedGasPriceProvider.request, _getParams.
  rewrite Hm, Hp.
  replace ("eth_sendTransaction" =? "eth_sendTransaction")%string with true
    by reflexivity.
  cbn [firstParam nth isUndefined]. run. cbn [getProp setProp].
  destruct (isUndefined (lookup "gasPrice" fields)),
    (isUndefined (lookup "maxFeePerGas" fields)),
    (isUndefined (lookup "maxPriorityFeePerGas" fields));
    cbn [negb andb]; try reflexivity;
    now rewrite (withTx_same args fields rest Hp).
Qed.

Lemma sentSince_one {Q : EIP1193Provider} {F} (s : state (P := Q) F) req :
  reachedTransport s (snd (wrappedRequest Forwarded req s)) = [req].
Proof.
  unfold reachedTransport, sentSince, wrappedRequest.
  destruct (provider_request req (world s)). cbn [snd calls].
  rewrite skipn_app, skipn_all, Nat.sub_diag. reflexivity.
Qed.

End FixedChains.

Module AutomaticGasPriceFurtherExamples.
Import AutomaticGasPriceProvider.

(** The support is known; two transactions are sent. *)
Lemma X9_witness :
  let s := initial (P := londonNode)
             {| _nodeHasFeeHistory := None;
                _nodeSupportsEIP1559 := Some true |} 0%nat in
  let reqs := [sendTransaction [("from", VStr "0xf00")];
               sendTransaction [("from", VStr "0xf01")]] in
  let s' := snd (serveAll (request (RT := v8)) reqs s) in
  _nodeSupportsEIP1559 (this s') = Some true /\
  latestBlockLookups (calls s') = latestBlockLookups (calls s).
Proof.
  intros s reqs.
  apply (X9_support_is_detected_once (P := londonNode) (RT := v8)
           s true reqs eq_refl).
Defined.

(** The fee history is marked as missing; two transactions are sent. *)
Lemma X10_witness :
  let s := initial (P := londonNode)
             {| _nodeHasFeeHistory := Some false;
                _nodeSupportsEIP1559 := Some true |} 0%nat in
  let reqs := [sendTransaction [("from", VStr "0xf00")];
               sendTransaction [("from", VStr "0xf01")]] in
  let s' := snd (serveAll (request (RT := v8)) reqs s) in
  _nodeHasFeeHistory (this s') = Some false /\
  filter isFeeHistoryRequest (calls s') = filter isFeeHistoryRequest (calls s).
Proof.
  intros s reqs.
  apply (X10_fee_history_is_not_asked_again (P := londonNode) (RT := v8)
           s reqs eq_refl).
Defined.


(** The fee history has one base fee only. *)
Lemma X12_witness :
  let s := initial (P := shortHistoryNode) fresh 0%nat in
  let s1 := supportFound s londonBlock 1%nat in
  let response := VObj [("baseFeePerGas", VArr [VStr "0x5a"]);
                        ("reward", VArr [VArr [VStr "0x5"]])] in
  exists s2,
    _suggestEip1559FeePriceValues (RT := v8) s = (Returned None, s2) /\
    _nodeHasFeeHistory (this s2) = Some false /\
    calls s2 = calls (answered s1 Auxiliary feeHistoryRequest
                        (Returned response) 2%nat).
Proof.
  intros s s1 response.
  apply (X12_malformed_fee_history_is_caught (P := shortHistoryNode)
           (RT := v8) s s1 response 2%nat (VArr [VStr "0x5a"]) VUndefined
           (Err (invalidQuantityMessage (Runtime := v8) VUndefined)));
    try reflexivity.
  apply (support_found (P := shortHistoryNode) (RT := v8)
           s londonBlock 1%nat (VStr "0x5a")); reflexivity.
Defined.



(** A transaction without pricing fields. *)
Lemma X15_witness :
  let s := initial (P := londonNode) fresh 0%nat in
  let args := sendTransaction [("from", VStr "0xf00")] in
  (exists e s0,
     request (RT := v8) args s = (Threw e, s0) /\
     forwardedCalls (calls s0) = forwardedCalls (calls s)) \/
  (exists args' tx' s0,
     request (RT := v8) args s = wrappedRequest Forwarded args' s0 /\
     forwardedCalls (calls s0) = forwardedCalls (calls s) /\
     method args' = "eth_sendTransaction" /\
     params args' = Some [VObj tx'] /\
     priced tx' = true).
Proof.
  intros s args.
  apply (X15_forwarded_transaction_is_priced (P := londonNode) (RT := v8)
           args [("from", VStr "0xf00")] [] s eq_refl eq_refl).
Defined.

(** The caller's fee is the decimal string "12". *)
Lemma X16_witness :
  let s := initial (P := londonNode) fresh 0%nat in
  let tx := [("from", VStr "0xf00"); ("maxFeePerGas", VStr "12")] in
  let s1 := snd (_suggestEip1559FeePriceValues (RT := v8) s) in
  request (RT := v8) (sendTransaction tx) s =
    (Threw (Err (invalidQuantityMessage (Runtime := v8) (VStr "12"))), s1) /\
  forwardedCalls (calls s1) = forwardedCalls (calls s).
Proof.
  intros s tx s1.
  apply (X16_malformed_fee_is_rejected (P := londonNode) (RT := v8)
           (sendTransaction tx) tx [] s s1 s1
           (Some {| maxFeePerGas := 126; maxPriorityFeePerGas := 5 |})
           {| maxFeePerGas := 126; maxPriorityFeePerGas := 5 |});
    try reflexivity.
  apply defaults_suggested.
Defined.
End AutomaticGasPriceFurtherExamples.

Module ChainExamples.

End ChainExamples.
